(** * SmartDrive ADAS: the sensor fusion engine

    A shallow embedding of [src/software/fusion/sensor_fusion.py] (class
    [SensorFusion]) and the properties its specification states about it.

    Modelling conventions.
    - Python numbers (int and float) are exact rationals [Q]; the one
      non-finite value the module produces, [float('inf')], is the
      constructor [PInf] of [num].  Numeric results are compared with
      [==] ([Qeq]).  Rounding, overflow and NaN are not modelled.
    - Each call to [time.time()] is an explicit argument of the method
      that makes it.
    - A [dict] read with [.get(key, default)] is a record of optional
      fields; a [dict] indexed by a computed key is a [gmap string Q].
      A field is absent or holds a value of the type the methods expect:
      a key that holds [None], or a value of another type, is not
      represented.
    - Methods run in a state monad over the object [self]. *)

From Stdlib Require Import QArith Qminmax Qabs Lqa.
From stdpp Require Import gmap strings list fin_maps.

Local Open Scope string_scope.
Local Open Scope list_scope.
Local Open Scope Q_scope.

(** ** Numbers *)

(** Python's [x > y] on numbers. *)
Definition Qgtb (x y : Q) : bool :=
  match x ?= y with
  | Gt => true
  | _ => false
  end.

(** A number that may be [float('inf')]. *)
Inductive num : Type :=
  | Fin (q : Q)
  | PInf.

(** Python's [a < b] on such numbers. *)
Definition num_ltb (a b : num) : bool :=
  match a, b with
  | Fin x, Fin y => Qgtb y x
  | Fin _, PInf => true
  | PInf, _ => false
  end.

(** Truth value of [obj.get('distance')]: [None] (key missing, or the
    value [None]) and zero are false, every other number is true. *)
Definition truthy (d : option num) : bool :=
  match d with
  | None => false
  | Some (Fin q) => negb (Qeq_bool q 0)
  | Some PInf => true
  end.

(** Python's [min(iterable)] on a non-empty list: the first minimal item. *)
Fixpoint min_from (best : num) (rest : list num) : num :=
  match rest with
  | [] => best
  | x :: rest' => min_from (if num_ltb x best then x else best) rest'
  end.

(** ** collections.deque(maxlen=n) *)

Module Deque.
Record t (A : Type) : Type := mk { maxlen : nat; items : list A }.
Arguments mk {A} _ _.
Arguments maxlen {A} _.
Arguments items {A} _.

Definition empty {A} (n : nat) : t A := mk n [].

(** [d.append(x)]: add on the right; a deque that has grown beyond
    [maxlen] drops its leftmost item. *)
Definition append {A} (d : t A) (x : A) : t A :=
  let grown := items d ++ [x] in
  if (maxlen d <? length grown)%nat
  then mk (maxlen d) (tail grown)
  else mk (maxlen d) grown.

Definition len {A} (d : t A) : nat := length (items d).

(** [d[-1]], where [None] stands for the empty deque. *)
Definition latest {A} (d : t A) : option A := last (items d).
End Deque.

(** ** Data shapes *)

(** One detection, as built by [ObjectDetector.process_detections]; the
    fusion module reads its ['distance'] only. *)
Record DetectedObject : Type := { distance : option num }.

Module VisionData.
Record t : Type := mk {
  lane_departure_warning : option bool;
  collision_warning : option bool;
  detected_objects : option (list DetectedObject);
  confidence : option Q
}.
End VisionData.

Module BehaviorAnalysis.
Record t : Type := mk {
  aggressive_acceleration : option bool;
  aggressive_braking : option bool;
  excessive_speed : option bool;
  engine_stress : option bool
}.
Definition empty : t := mk None None None None.
End BehaviorAnalysis.

Module ObdData.
Record t : Type := mk {
  speed : option Q;
  rpm : option Q;
  throttle_position : option Q;
  behavior_analysis : option BehaviorAnalysis.t
}.
End ObdData.

Module FatigueData.
Record t : Type := mk {
  fatigue_score : option Q;
  blink_detected : option bool;
  yawn_detected : option bool;
  ear : option Q;
  confidence : option Q
}.
End FatigueData.

Module VisionEntry.
Record t : Type := mk {
  timestamp : Q;
  lane_departure : bool;
  collision_warning : bool;
  objects_detected : nat;
  closest_object_distance : num;
  confidence : Q
}.
End VisionEntry.

Module ObdEntry.
Record t : Type := mk {
  timestamp : Q;
  speed : Q;
  rpm : Q;
  throttle_position : Q;
  aggressive_acceleration : bool;
  aggressive_braking : bool;
  excessive_speed : bool;
  engine_stress : bool
}.
End ObdEntry.

Module FatigueEntry.
Record t : Type := mk {
  timestamp : Q;
  fatigue_score : Q;
  blink_detected : bool;
  yawn_detected : bool;
  ear : Q;
  confidence : Q
}.
End FatigueEntry.

Record AlertThresholds : Type := {
  thr_collision_risk : Q;
  thr_lane_departure : Q;
  thr_driver_fatigue : Q;
  thr_aggressive_driving : Q
}.

(** The object [self]. *)
Record SensorFusion : Type := mkSensorFusion {
  buffer_size : nat;
  vision_buffer : Deque.t VisionEntry.t;
  obd_buffer : Deque.t ObdEntry.t;
  fatigue_buffer : Deque.t FatigueEntry.t;
  weights : gmap string Q;
  alert_thresholds : AlertThresholds
}.

(** ** The state monad of the methods *)

Definition M (A : Type) : Type := SensorFusion -> A * SensorFusion.

Definition ret {A} (a : A) : M A := fun self => (a, self).

Definition bind {A B} (m : M A) (k : A -> M B) : M B :=
  fun self => let (a, self') := m self in k a self'.

Definition get : M SensorFusion := fun self => (self, self).

Definition put (self' : SensorFusion) : M unit := fun _ => (tt, self').

Notation "x <- m ;; k" := (bind m (fun x => k))
  (at level 200, m at level 99, k at level 200, right associativity,
   format "'[v' x  <-  m  ;; '/' k ']'").

(** Value returned, and object left behind, by a method call. *)
Definition eval {A} (m : M A) (self : SensorFusion) : A := fst (m self).
Definition exec {A} (m : M A) (self : SensorFusion) : SensorFusion := snd (m self).

(** ** SensorFusion.__init__ *)

Definition init_weights : gmap string Q :=
  <["vision" := 0.5]> (<["obd" := 0.3]> (<["fatigue" := 0.2]> ∅)).

Definition init_thresholds : AlertThresholds :=
  {| thr_collision_risk := 0.7;
     thr_lane_departure := 0.6;
     thr_driver_fatigue := 0.8;
     thr_aggressive_driving := 0.7 |}.

Definition init (buffer_size : nat) : SensorFusion :=
  {| buffer_size := buffer_size;
     vision_buffer := Deque.empty buffer_size;
     obd_buffer := Deque.empty buffer_size;
     fatigue_buffer := Deque.empty buffer_size;
     weights := init_weights;
     alert_thresholds := init_thresholds |}.

(** [self.weights[key]].  The keys of [self.weights] are fixed by
    [__init__] and no method adds or removes one (lemma
    [reachable_weights_keys]), so the lookup cannot raise [KeyError]. *)
Definition getitem (d : gmap string Q) (key : string) : Q :=
  default 0 (d !! key).

(** ** Ingestion *)

Definition _get_closest_object_distance (vision_data : VisionData.t) : num :=
  let objects := default [] (VisionData.detected_objects vision_data) in
  match objects with
  | [] => PInf
  | _ =>
    let distances :=
      map (fun obj => default PInf (distance obj))
          (List.filter (fun obj => truthy (distance obj)) objects) in
    match distances with
    | [] => PInf
    | d :: ds => min_from d ds
    end
  end.

Definition make_vision_entry (now : Q) (vision_data : VisionData.t) : VisionEntry.t :=
  {| VisionEntry.timestamp := now;
     VisionEntry.lane_departure :=
       default false (VisionData.lane_departure_warning vision_data);
     VisionEntry.collision_warning :=
       default false (VisionData.collision_warning vision_data);
     VisionEntry.objects_detected :=
       length (default [] (VisionData.detected_objects vision_data));
     VisionEntry.closest_object_distance :=
       _get_closest_object_distance vision_data;
     VisionEntry.confidence := default 1.0 (VisionData.confidence vision_data) |}.

Definition add_vision_data (now : Q) (vision_data : VisionData.t) : M unit :=
  self <- get ;;
  let vision_entry := make_vision_entry now vision_data in
  put {| buffer_size := buffer_size self;
         vision_buffer := Deque.append (vision_buffer self) vision_entry;
         obd_buffer := obd_buffer self;
         fatigue_buffer := fatigue_buffer self;
         weights := weights self;
         alert_thresholds := alert_thresholds self |}.

Definition make_obd_entry (now : Q) (obd_data : ObdData.t) : ObdEntry.t :=
  let behavior_analysis :=
    default BehaviorAnalysis.empty (ObdData.behavior_analysis obd_data) in
  {| ObdEntry.timestamp := now;
     ObdEntry.speed := default 0 (ObdData.speed obd_data);
     ObdEntry.rpm := default 0 (ObdData.rpm obd_data);
     ObdEntry.throttle_position := default 0 (ObdData.throttle_position obd_data);
     ObdEntry.aggressive_acceleration :=
       default false (BehaviorAnalysis.aggressive_acceleration behavior_analysis);
     ObdEntry.aggressive_braking :=
       default false (BehaviorAnalysis.aggressive_braking behavior_analysis);
     ObdEntry.excessive_speed :=
       default false (BehaviorAnalysis.excessive_speed behavior_analysis);
     ObdEntry.engine_stress :=
       default false (BehaviorAnalysis.engine_stress behavior_analysis) |}.

Definition add_obd_data (now : Q) (obd_data : ObdData.t) : M unit :=
  self <- get ;;
  let obd_entry := make_obd_entry now obd_data in
  put {| buffer_size := buffer_size self;
         vision_buffer := vision_buffer self;
         obd_buffer := Deque.append (obd_buffer self) obd_entry;
         fatigue_buffer := fatigue_buffer self;
         weights := weights self;
         alert_thresholds := alert_thresholds self |}.

Definition make_fatigue_entry (now : Q) (fatigue_data : FatigueData.t) : FatigueEntry.t :=
  {| FatigueEntry.timestamp := now;
     FatigueEntry.fatigue_score := default 0 (FatigueData.fatigue_score fatigue_data);
     FatigueEntry.blink_detected :=
       default false (FatigueData.blink_detected fatigue_data);
     FatigueEntry.yawn_detected :=
       default false (FatigueData.yawn_detected fatigue_data);
     FatigueEntry.ear := default 0.3 (FatigueData.ear fatigue_data);
     FatigueEntry.confidence := default 1.0 (FatigueData.confidence fatigue_data) |}.

Definition add_fatigue_data (now : Q) (fatigue_data : FatigueData.t) : M unit :=
  self <- get ;;
  let fatigue_entry := make_fatigue_entry now fatigue_data in
  put {| buffer_size := buffer_size self;
         vision_buffer := vision_buffer self;
         obd_buffer := obd_buffer self;
         fatigue_buffer := Deque.append (fatigue_buffer self) fatigue_entry;
         weights := weights self;
         alert_thresholds := alert_thresholds self |}.

(** ** Risk model *)

(** Python's true division of two non-negative [int]s. *)
Definition ratio (n m : nat) : Q :=
  inject_Z (Z.of_nat n) / inject_Z (Z.of_nat m).

(** The vision part of [calculate_collision_risk] (source lines 91-101). *)
Definition vision_risk (latest_vision : VisionEntry.t) : Q :=
  let vision_risk := 0.0 in
  let vision_risk :=
    if VisionEntry.collision_warning latest_vision
    then vision_risk + 0.8 else vision_risk in
  let closest_distance := VisionEntry.closest_object_distance latest_vision in
  match closest_distance with
  | Fin closest_distance =>
    let distance_risk := Qmax 0 (1 - closest_distance / 20) in
    vision_risk + distance_risk * 0.6
  | PInf => vision_risk
  end.

(** The OBD part of [calculate_collision_risk] (source lines 104-112). *)
Definition obd_risk (latest_obd : ObdEntry.t) : Q :=
  let obd_risk := 0.0 in
  let speed := ObdEntry.speed latest_obd in
  let obd_risk :=
    if Qgtb speed 60 then obd_risk + (speed - 60) / 100 * 0.4 else obd_risk in
  if ObdEntry.aggressive_acceleration latest_obd
     || ObdEntry.aggressive_braking latest_obd
  then obd_risk + 0.3 else obd_risk.

Definition calculate_collision_risk : M Q :=
  self <- get ;;
  match Deque.latest (vision_buffer self), Deque.latest (obd_buffer self) with
  | Some latest_vision, Some latest_obd =>
    let total_risk :=
      vision_risk latest_vision * getitem (weights self) "vision"
      + obd_risk latest_obd * getitem (weights self) "obd" in
    ret (Qmin total_risk 1.0)
  | _, _ => ret 0.0
  end.

(** The loop of [calculate_lane_departure_risk] over the reversed buffer;
    the first entry older than five seconds ends it. *)
Fixpoint count_recent_warnings (current_time : Q) (entries : list VisionEntry.t)
    (recent_warnings : nat) : nat :=
  match entries with
  | [] => recent_warnings
  | entry :: rest =>
    if Qgtb (current_time - VisionEntry.timestamp entry) 5
    then recent_warnings
    else count_recent_warnings current_time rest
           (if VisionEntry.lane_departure entry
            then S recent_warnings else recent_warnings)
  end.

Definition calculate_lane_departure_risk (current_time : Q) : M Q :=
  self <- get ;;
  match Deque.items (vision_buffer self) with
  | [] => ret 0.0
  | _ =>
    let recent_warnings :=
      count_recent_warnings current_time
        (rev (Deque.items (vision_buffer self))) 0 in
    ret (Qmin (ratio recent_warnings (Deque.len (vision_buffer self))) 1.0)
  end.

Definition calculate_driver_fatigue_risk : M Q :=
  self <- get ;;
  match Deque.latest (fatigue_buffer self) with
  | None => ret 0.0
  | Some latest_fatigue =>
    let fatigue_risk := FatigueEntry.fatigue_score latest_fatigue / 100 in
    let recent_yawns :=
      length (List.filter FatigueEntry.yawn_detected
                (Deque.items (fatigue_buffer self))) in
    let fatigue_risk :=
      if (2 <? recent_yawns)%nat then fatigue_risk + 0.2 else fatigue_risk in
    ret (Qmin fatigue_risk 1.0)
  end.

Definition is_aggressive (entry : ObdEntry.t) : bool :=
  ObdEntry.aggressive_acceleration entry
  || ObdEntry.aggressive_braking entry
  || ObdEntry.excessive_speed entry
  || ObdEntry.engine_stress entry.

Definition calculate_aggressive_driving_risk : M Q :=
  self <- get ;;
  match Deque.items (obd_buffer self) with
  | [] => ret 0.0
  | _ =>
    let total_entries := Deque.len (obd_buffer self) in
    let aggressive_count :=
      length (List.filter is_aggressive (Deque.items (obd_buffer self))) in
    ret (if (0 <? total_entries)%nat
         then ratio aggressive_count total_entries else 0.0)
  end.

(** ** Assessment *)

Module Risks.
Record t : Type := mk {
  collision : Q;
  lane_departure : Q;
  driver_fatigue : Q;
  aggressive_driving : Q
}.
End Risks.

Module Alert.
Record t : Type := mk { type : string; severity : string; message : string }.
End Alert.

Module Assessment.
Record t : Type := mk {
  timestamp : Q;
  risks : Risks.t;
  alerts : list Alert.t;
  recommendations : list string;
  overall_safety_score : Q
}.
End Assessment.

Definition collision_alert : Alert.t :=
  Alert.mk "COLLISION_WARNING" "HIGH"
           "Collision risk detected! Maintain safe distance.".
Definition lane_alert : Alert.t :=
  Alert.mk "LANE_DEPARTURE" "MEDIUM" "Lane departure detected. Return to lane.".
Definition fatigue_alert : Alert.t :=
  Alert.mk "FATIGUE_WARNING" "HIGH" "Driver fatigue detected. Take a break.".
Definition aggressive_alert : Alert.t :=
  Alert.mk "AGGRESSIVE_DRIVING" "MEDIUM"
           "Aggressive driving detected. Drive more calmly.".

(** [if cond: l.append(x)] *)
Definition append_if {A} (cond : bool) (l : list A) (x : A) : list A :=
  if cond then l ++ [x] else l.

(** [now] is the clock read for the assessment's timestamp, [current_time]
    the one read inside [calculate_lane_departure_risk]. *)
Definition generate_comprehensive_assessment (now current_time : Q)
    : M Assessment.t :=
  collision <- calculate_collision_risk ;;
  lane_departure <- calculate_lane_departure_risk current_time ;;
  driver_fatigue <- calculate_driver_fatigue_risk ;;
  aggressive_driving <- calculate_aggressive_driving_risk ;;
  self <- get ;;
  let risks := Risks.mk collision lane_departure driver_fatigue aggressive_driving in
  let thresholds := alert_thresholds self in
  let alerts := [] in
  let alerts :=
    append_if (Qgtb (Risks.collision risks) (thr_collision_risk thresholds))
              alerts collision_alert in
  let alerts :=
    append_if (Qgtb (Risks.lane_departure risks) (thr_lane_departure thresholds))
              alerts lane_alert in
  let alerts :=
    append_if (Qgtb (Risks.driver_fatigue risks) (thr_driver_fatigue thresholds))
              alerts fatigue_alert in
  let alerts :=
    append_if (Qgtb (Risks.aggressive_driving risks)
                    (thr_aggressive_driving thresholds))
              alerts aggressive_alert in
  let recommendations := [] in
  let recommendations :=
    append_if (Qgtb (Risks.collision risks) 0.3)
              recommendations "Increase following distance" in
  let recommendations :=
    append_if (Qgtb (Risks.driver_fatigue risks) 0.5)
              recommendations "Consider taking a break" in
  let recommendations :=
    append_if (Qgtb (Risks.aggressive_driving risks) 0.4)
              recommendations "Reduce acceleration and maintain steady speed" in
  let weighted_risk :=
    Risks.collision risks * 0.4
    + Risks.lane_departure risks * 0.2
    + Risks.driver_fatigue risks * 0.3
    + Risks.aggressive_driving risks * 0.1 in
  ret (Assessment.mk now risks alerts recommendations
         (Qmax 0 (100 - weighted_risk * 100))).

Module Summary.
Record t : Type := mk {
  vision_entries : nat;
  obd_entries : nat;
  fatigue_entries : nat;
  last_update : Q;
  fusion_weights : gmap string Q
}.
End Summary.

(** The summary carries [self.weights.copy()]: a value of its own. *)
Definition get_data_summary (now : Q) : M Summary.t :=
  self <- get ;;
  ret (Summary.mk (Deque.len (vision_buffer self))
                  (Deque.len (obd_buffer self))
                  (Deque.len (fatigue_buffer self))
                  now
                  (weights self)).

(** ** Weight adjustment *)

(** [sum(sensor_confidence.values())].  A [gmap] is folded in its own key
    order, not in the insertion order of the [dict]; over exact rationals
    the sum is the same in every order ([Qplus_swap]), and so is the
    result of the loop below, which assigns to distinct keys. *)
Definition sum_values (sensor_confidence : gmap string Q) : Q :=
  map_fold (fun _ confidence acc => acc + confidence) 0 sensor_confidence.

(** One iteration of the loop of [adjust_fusion_weights]. *)
Definition adjust_one (total_confidence : Q) (sensor : string) (confidence : Q)
    (w : gmap string Q) : gmap string Q :=
  match w !! sensor with
  | Some _ => <[sensor := confidence / total_confidence]> w
  | None => w
  end.

Definition adjust_fusion_weights (sensor_confidence : gmap string Q) : M unit :=
  self <- get ;;
  let total_confidence := sum_values sensor_confidence in
  if Qgtb total_confidence 0
  then
    put {| buffer_size := buffer_size self;
           vision_buffer := vision_buffer self;
           obd_buffer := obd_buffer self;
           fatigue_buffer := fatigue_buffer self;
           weights := map_fold (adjust_one total_confidence) (weights self)
                               sensor_confidence;
           alert_thresholds := alert_thresholds self |}
  else ret tt.

(** ** Export *)

Module ExportDoc.
Record t : Type := mk {
  vision_data : list VisionEntry.t;
  obd_data : list ObdEntry.t;
  fatigue_data : list FatigueEntry.t;
  weights : gmap string Q;
  thresholds : AlertThresholds
}.
End ExportDoc.

(** The document [export_data] hands to [json.dump]; writing the file is
    outside the model. *)
Definition export_data : M ExportDoc.t :=
  self <- get ;;
  ret (ExportDoc.mk (Deque.items (vision_buffer self))
                    (Deque.items (obd_buffer self))
                    (Deque.items (fatigue_buffer self))
                    (weights self)
                    (alert_thresholds self)).

(** ** Histories of calls *)

(** A call of a public method, with its argument and the clock readings
    it makes. *)
Inductive op : Type :=
  | AddVision (now : Q) (vision_data : VisionData.t)
  | AddObd (now : Q) (obd_data : ObdData.t)
  | AddFatigue (now : Q) (fatigue_data : FatigueData.t)
  | AdjustWeights (sensor_confidence : gmap string Q)
  | Assess (now current_time : Q)
  | Summarise (now : Q)
  | ExportData.

Definition step (o : op) : M unit :=
  match o with
  | AddVision now vision_data => add_vision_data now vision_data
  | AddObd now obd_data => add_obd_data now obd_data
  | AddFatigue now fatigue_data => add_fatigue_data now fatigue_data
  | AdjustWeights sensor_confidence => adjust_fusion_weights sensor_confidence
  | Assess now current_time =>
    _ <- generate_comprehensive_assessment now current_time ;; ret tt
  | Summarise now => _ <- get_data_summary now ;; ret tt
  | ExportData => _ <- export_data ;; ret tt
  end.

Definition run (ops : list op) (self : SensorFusion) : SensorFusion :=
  fold_left (fun self o => exec (step o) self) ops self.

(** The states an engine built with [SensorFusion(buffer_size)] can be in. *)
Definition reachable (buffer_size : nat) (self : SensorFusion) : Prop :=
  exists ops, self = run ops (init buffer_size).

(** The entries pushed on each channel by a history of calls, in arrival
    order. *)
Definition vision_pushes (ops : list op) : list VisionEntry.t :=
  flat_map (fun o => match o with
                     | AddVision now vision_data =>
                       [make_vision_entry now vision_data]
                     | _ => []
                     end) ops.

Definition obd_pushes (ops : list op) : list ObdEntry.t :=
  flat_map (fun o => match o with
                     | AddObd now obd_data => [make_obd_entry now obd_data]
                     | _ => []
                     end) ops.

Definition fatigue_pushes (ops : list op) : list FatigueEntry.t :=
  flat_map (fun o => match o with
                     | AddFatigue now fatigue_data =>
                       [make_fatigue_entry now fatigue_data]
                     | _ => []
                     end) ops.

(** The [n] most recent items of [l], oldest first. *)
Definition most_recent {A} (n : nat) (l : list A) : list A :=
  drop (length l - n) l.

(** The three keys of [self.weights]. *)
Definition weight_keys : gset string := {[ "vision"; "obd"; "fatigue" ]}.

(** Every value of a confidence (or weight) mapping is non-negative. *)
Definition nonneg_values (m : gmap string Q) : bool :=
  forallb (fun kv => Qle_bool 0 (snd kv)) (map_to_list m).

(** Every value of a confidence mapping lies in the range [0, 1] of a
    confidence. *)
Definition confidences_in_range (m : gmap string Q) : bool :=
  forallb (fun kv => Qle_bool 0 (snd kv) && Qle_bool (snd kv) 1)
          (map_to_list m).

(** [self.weights['vision'] + self.weights['obd'] + self.weights['fatigue']] *)
Definition weights_total (self : SensorFusion) : Q :=
  getitem (weights self) "vision" + getitem (weights self) "obd"
  + getitem (weights self) "fatigue".

(** No [adjust_fusion_weights] call of the history passes a negative
    confidence. *)
Definition nonneg_confidences (ops : list op) : bool :=
  forallb (fun o => match o with
                    | AdjustWeights sensor_confidence =>
                      nonneg_values sensor_confidence
                    | _ => true
                    end) ops.

(** ** Vocabulary of the statements *)

(** The four risk domains, with the risk, the threshold and the alert
    that [generate_comprehensive_assessment] pairs with each. *)
Inductive domain : Type :=
  | Collision
  | LaneDeparture
  | DriverFatigue
  | AggressiveDriving.

Definition risk_of (d : domain) (risks : Risks.t) : Q :=
  match d with
  | Collision => Risks.collision risks
  | LaneDeparture => Risks.lane_departure risks
  | DriverFatigue => Risks.driver_fatigue risks
  | AggressiveDriving => Risks.aggressive_driving risks
  end.

Definition threshold_of (d : domain) (thresholds : AlertThresholds) : Q :=
  match d with
  | Collision => thr_collision_risk thresholds
  | LaneDeparture => thr_lane_departure thresholds
  | DriverFatigue => thr_driver_fatigue thresholds
  | AggressiveDriving => thr_aggressive_driving thresholds
  end.

Definition alert_of (d : domain) : Alert.t :=
  match d with
  | Collision => collision_alert
  | LaneDeparture => lane_alert
  | DriverFatigue => fatigue_alert
  | AggressiveDriving => aggressive_alert
  end.

(** The alerts of a list that belong to domain [d], by their type. *)
Definition alerts_for (d : domain) (alerts : list Alert.t) : list Alert.t :=
  List.filter (fun a => String.eqb (Alert.type a) (Alert.type (alert_of d)))
              alerts.

(** A vision entry with another closest distance, or another collision
    flag, and every other field as it was. *)
Definition set_distance (entry : VisionEntry.t) (d : num) : VisionEntry.t :=
  {| VisionEntry.timestamp := VisionEntry.timestamp entry;
     VisionEntry.lane_departure := VisionEntry.lane_departure entry;
     VisionEntry.collision_warning := VisionEntry.collision_warning entry;
     VisionEntry.objects_detected := VisionEntry.objects_detected entry;
     VisionEntry.closest_object_distance := d;
     VisionEntry.confidence := VisionEntry.confidence entry |}.

Definition set_warning (entry : VisionEntry.t) (b : bool) : VisionEntry.t :=
  {| VisionEntry.timestamp := VisionEntry.timestamp entry;
     VisionEntry.lane_departure := VisionEntry.lane_departure entry;
     VisionEntry.collision_warning := b;
     VisionEntry.objects_detected := VisionEntry.objects_detected entry;
     VisionEntry.closest_object_distance :=
       VisionEntry.closest_object_distance entry;
     VisionEntry.confidence := VisionEntry.confidence entry |}.

(** The engine [self] with [entry] as its latest vision entry, and its
    older vision entries, other histories, weights and thresholds as
    they were. *)
Definition with_latest_vision (self : SensorFusion) (entry : VisionEntry.t)
    : SensorFusion :=
  {| buffer_size := buffer_size self;
     vision_buffer :=
       Deque.mk (Deque.maxlen (vision_buffer self))
                (removelast (Deque.items (vision_buffer self)) ++ [entry]);
     obd_buffer := obd_buffer self;
     fatigue_buffer := fatigue_buffer self;
     weights := weights self;
     alert_thresholds := alert_thresholds self |}.

(** A detection without a distance, or at exactly 0 metres. *)
Definition missing_or_zero (obj : DetectedObject) : Prop :=
  distance obj = None \/ exists q, distance obj = Some (Fin q) /\ q == 0.

(** The vision sample [vision_data] with other detections. *)
Definition with_objects (vision_data : VisionData.t)
    (objects : list DetectedObject) : VisionData.t :=
  {| VisionData.lane_departure_warning :=
       VisionData.lane_departure_warning vision_data;
     VisionData.collision_warning := VisionData.collision_warning vision_data;
     VisionData.detected_objects := Some objects;
     VisionData.confidence := VisionData.confidence vision_data |}.

(** A method that leaves [self] as it found it. *)
Definition read_only {A} (m : M A) : Prop := forall self, exec m self = self.

(** [a <= b] on numbers that may be infinite. *)
Definition num_le (a b : num) : Prop :=
  match a, b with
  | Fin x, Fin y => x <= y
  | _, PInf => True
  | PInf, Fin _ => False
  end.

(** ** obd/obd_reader.py: class OBDReader *)

(** One item of [data_buffer]: the value a query returned, its unit and
    the time it was read.  Values are taken to be plain numbers. *)
Module Reading.
Record t : Type := mk { value : Q; unit : string; timestamp : Q }.
End Reading.

(** What the OBD connection does with one command of the reading loop:
    the command is unknown or unsupported, the response carries no
    value, it carries a value and a unit, or the query raises. *)
Inductive response : Type :=
  | Unavailable
  | NoValue
  | Value (v : Q) (unit : string)
  | QueryError.

Module OBDReader.
(** The part of the object the analysis depends on; the connection and
    the reading thread stay outside. *)
Record t : Type := mk {
  commands : list string;
  data_buffer : gmap string Reading.t
}.

Definition init : t :=
  {| commands := ["RPM"; "SPEED"; "THROTTLE_POS"; "ENGINE_LOAD"; "FUEL_LEVEL";
                  "COOLANT_TEMP"; "INTAKE_TEMP"];
     data_buffer := ∅ |}.

(** The [for] loop of [_read_loop]: each command that answers with a
    value overwrites its item; an exception ends the pass. *)
Fixpoint read_commands (query : string -> response) (clock : string -> Q)
    (cmds : list string) (buffer : gmap string Reading.t)
    : gmap string Reading.t :=
  match cmds with
  | [] => buffer
  | cmd_name :: rest =>
    match query cmd_name with
    | Value v unit =>
      read_commands query clock rest
        (<[cmd_name := Reading.mk v unit (clock cmd_name)]> buffer)
    | Unavailable | NoValue => read_commands query clock rest buffer
    | QueryError => buffer
    end
  end.

(** One turn of the [while] loop of [_read_loop]; [clock cmd_name] is the
    time read when the item of [cmd_name] is stored. *)
Definition _read_loop_turn (query : string -> response) (clock : string -> Q)
    (self : t) : t :=
  {| commands := commands self;
     data_buffer := read_commands query clock (commands self) (data_buffer self) |}.

Definition get_latest_data (self : t) : gmap string Reading.t := data_buffer self.

Definition get_speed (self : t) : option Q :=
  Reading.value <$> data_buffer self !! "SPEED".

Definition get_rpm (self : t) : option Q :=
  Reading.value <$> data_buffer self !! "RPM".

Definition get_throttle_position (self : t) : option Q :=
  Reading.value <$> data_buffer self !! "THROTTLE_POS".

(** [analysis[key] = True] for each of the three keys the analysis
    assigns. *)
Definition set_aggressive_acceleration (analysis : BehaviorAnalysis.t)
    : BehaviorAnalysis.t :=
  BehaviorAnalysis.mk (Some true)
    (BehaviorAnalysis.aggressive_braking analysis)
    (BehaviorAnalysis.excessive_speed analysis)
    (BehaviorAnalysis.engine_stress analysis).

Definition set_engine_stress (analysis : BehaviorAnalysis.t)
    : BehaviorAnalysis.t :=
  BehaviorAnalysis.mk (BehaviorAnalysis.aggressive_acceleration analysis)
    (BehaviorAnalysis.aggressive_braking analysis)
    (BehaviorAnalysis.excessive_speed analysis)
    (Some true).

Definition set_excessive_speed (analysis : BehaviorAnalysis.t)
    : BehaviorAnalysis.t :=
  BehaviorAnalysis.mk (BehaviorAnalysis.aggressive_acceleration analysis)
    (BehaviorAnalysis.aggressive_braking analysis)
    (Some true)
    (BehaviorAnalysis.engine_stress analysis).

Definition analyze_driving_behavior (self : t) : BehaviorAnalysis.t :=
  let analysis :=
    BehaviorAnalysis.mk (Some false) (Some false) (Some false) (Some false) in
  match get_speed self, get_rpm self, get_throttle_position self with
  | Some speed, Some rpm, Some throttle =>
    let analysis :=
      if Qgtb throttle 80 && Qgtb speed 20
      then set_aggressive_acceleration analysis else analysis in
    let analysis :=
      if Qgtb rpm 4000 then set_engine_stress analysis else analysis in
    let analysis :=
      if Qgtb speed 120 then set_excessive_speed analysis else analysis in
    analysis
  | _, _, _ => analysis
  end.

(** The reader after a number of turns of the reading loop, each with
    its own answers and clock. *)
Definition run_turns (turns : list ((string -> response) * (string -> Q)))
    (self : t) : t :=
  fold_left (fun self turn => _read_loop_turn (fst turn) (snd turn) self)
            turns self.
End OBDReader.

(** ** vision/lane_detection.py and vision/object_detection.py *)

Module LaneData.
Record t : Type := mk {
  left_lane : list (Z * Z);
  right_lane : list (Z * Z);
  departure_warning : bool
}.
End LaneData.

(** [LaneDetector.process_lane_output]: the model output and the frame
    shape are not read. *)
Definition process_lane_output : LaneData.t :=
  let left_lane := [] in
  let right_lane := [] in
  let departure_warning := false in
  LaneData.mk left_lane right_lane departure_warning.

(** The collision flag [ObjectDetector.draw_detections] returns; what it
    draws on the frame stays outside. *)
Definition draw_detections (detections : list DetectedObject) : bool :=
  fold_left
    (fun collision_warning detection =>
       match distance detection with
       | Some d =>
         if truthy (Some d)
         then (if num_ltb d (Fin 10) then true else collision_warning)
         else collision_warning
       | None => collision_warning
       end)
    detections false.

(** ** main.py: the dictionaries [process_frame] hands to the fusion *)

(** [vision_data] (source lines 91-97); its ['night_mode_active'] is not
    read by the fusion. *)
Definition process_frame_vision_data (lane_data : LaneData.t)
    (detected_objects : list DetectedObject) : VisionData.t :=
  let collision_warning := draw_detections detected_objects in
  {| VisionData.lane_departure_warning := Some (LaneData.departure_warning lane_data);
     VisionData.collision_warning := Some collision_warning;
     VisionData.detected_objects := Some detected_objects;
     VisionData.confidence := Some 0.9 |}.

(** A value of the dictionary [obd_data] of [process_frame]: an item of
    the reader's buffer, or the behaviour analysis. *)
Inductive obd_value : Type :=
  | ReadingValue (r : Reading.t)
  | AnalysisValue (a : BehaviorAnalysis.t).

(** [obd_data] (source lines 107-109): a copy of the reader's buffer with
    the analysis stored under ['behavior_analysis']. *)
Definition process_frame_obd_data (latest_data : gmap string Reading.t)
    (behavior_analysis : BehaviorAnalysis.t) : gmap string obd_value :=
  <["behavior_analysis" := AnalysisValue behavior_analysis]>
    (ReadingValue <$> latest_data).

(** That dictionary as [add_obd_data] reads it.  A buffer item under
    ['behavior_analysis'] has none of the four flags; a buffer item under
    ['speed'], ['rpm'] or ['throttle_position'] is not a number, which
    [ObdData.t] cannot hold: the result is then [None]. *)
Definition as_obd_data (obd_data : gmap string obd_value) : option ObdData.t :=
  match obd_data !! "speed", obd_data !! "rpm", obd_data !! "throttle_position" with
  | None, None, None =>
    Some (ObdData.mk None None None
            (match obd_data !! "behavior_analysis" with
             | Some (AnalysisValue a) => Some a
             | Some (ReadingValue _) => Some BehaviorAnalysis.empty
             | None => None
             end))
  | _, _, _ => None
  end.

(** ** driver_monitoring/fatigue_detection.py: class FatigueDetector *)

(** The result of [analyze_drowsiness], without the landmarks. *)
Module DrowsinessAnalysis.
Record t : Type := mk {
  ear : Q;
  mar : Q;
  blink_detected : bool;
  yawn_detected : bool;
  fatigue_score : Q
}.
End DrowsinessAnalysis.

Module FatigueDetector.
(** The counters and timing of the detector; the interpreter stays
    outside. *)
Record t : Type := mk {
  EAR_THRESHOLD : Q;
  EAR_CONSEC_FRAMES : nat;
  eye_counter : nat;
  total_blinks : nat;
  MAR_THRESHOLD : Q;
  yawn_counter : nat;
  start_time : Q;
  blink_timestamps : list Q
}.

(** [__init__], where [now] is the clock reading kept as [start_time]. *)
Definition init (now : Q) : t :=
  {| EAR_THRESHOLD := 0.25;
     EAR_CONSEC_FRAMES := 20;
     eye_counter := 0;
     total_blinks := 0;
     MAR_THRESHOLD := 0.6;
     yawn_counter := 0;
     start_time := now;
     blink_timestamps := [] |}.

Definition calculate_fatigue_score (self : t) (current_time : Q) : Q :=
  let time_elapsed := current_time - start_time self in
  let recent_blinks :=
    List.filter (fun t => Qle_bool (current_time - t) 60) (blink_timestamps self) in
  let blink_rate := Z.of_nat (length recent_blinks) in
  let blink_score :=
    if (blink_rate <? 10)%Z
    then inject_Z (10 - blink_rate) / 10 * 50
    else if (30 <? blink_rate)%Z
         then inject_Z (blink_rate - 30) / 10 * 30
         else 0 in
  let yawn_score := inject_Z (Z.of_nat (yawn_counter self) * 10) in
  let time_score := Qmin (time_elapsed / 3600 * 20) 40 in
  let total_score := Qmin (blink_score + yawn_score + time_score) 100 in
  total_score.

(** The blink step of [analyze_drowsiness] (source lines 99-108). *)
Definition detect_blink (ear : Q) (now : Q) (self : t) : bool * t :=
  if Qgtb (EAR_THRESHOLD self) ear
  then (false,
        mk (EAR_THRESHOLD self) (EAR_CONSEC_FRAMES self) (eye_counter self + 1)
           (total_blinks self) (MAR_THRESHOLD self) (yawn_counter self)
           (start_time self) (blink_timestamps self))
  else if (EAR_CONSEC_FRAMES self <=? eye_counter self)%nat
       then (true,
             mk (EAR_THRESHOLD self) (EAR_CONSEC_FRAMES self) 0
                (total_blinks self + 1) (MAR_THRESHOLD self) (yawn_counter self)
                (start_time self) (blink_timestamps self ++ [now]))
       else (false,
             mk (EAR_THRESHOLD self) (EAR_CONSEC_FRAMES self) 0
                (total_blinks self) (MAR_THRESHOLD self) (yawn_counter self)
                (start_time self) (blink_timestamps self)).

(** The yawn step of [analyze_drowsiness] (source lines 110-117). *)
Definition detect_yawn (mar : Q) (self : t) : bool * t :=
  if Qgtb mar (MAR_THRESHOLD self)
  then ((10 <=? yawn_counter self + 1)%nat,
        mk (EAR_THRESHOLD self) (EAR_CONSEC_FRAMES self) (eye_counter self)
           (total_blinks self) (MAR_THRESHOLD self) (yawn_counter self + 1)
           (start_time self) (blink_timestamps self))
  else (false,
        mk (EAR_THRESHOLD self) (EAR_CONSEC_FRAMES self) (eye_counter self)
           (total_blinks self) (MAR_THRESHOLD self) 0
           (start_time self) (blink_timestamps self)).

(** What one frame gives the detector: the eye and mouth aspect ratios
    measured on it, or [None] when the landmark pipeline raised; and the
    two clock readings the call may make. *)
Record frame : Type := mkFrame {
  ratios : option (Q * Q);
  blink_time : Q;
  score_time : Q
}.

(** [analyze_drowsiness]: an exception of the landmark pipeline is caught
    and gives [None], before any counter is touched. *)
Definition analyze_drowsiness (f : frame) (self : t)
    : option DrowsinessAnalysis.t * t :=
  match ratios f with
  | None => (None, self)
  | Some (ear, mar) =>
    let (blink_detected, self) := detect_blink ear (blink_time f) self in
    let (yawn_detected, self) := detect_yawn mar self in
    let fatigue_score := calculate_fatigue_score self (score_time f) in
    (Some (DrowsinessAnalysis.mk ear mar blink_detected yawn_detected fatigue_score),
     self)
  end.

(** The detector after a sequence of frames. *)
Definition run_frames (frames : list frame) (self : t) : t :=
  fold_left (fun self f => snd (analyze_drowsiness f self)) frames self.

(** A frame on which the eyes were measured closed, or nothing was
    measured; a frame on which something was measured. *)
Definition closed_or_unmeasured (threshold : Q) (f : frame) : Prop :=
  match ratios f with
  | None => True
  | Some (ear, _) => ear < threshold
  end.

Definition measured (f : frame) : bool :=
  match ratios f with
  | None => false
  | Some _ => true
  end.

(** A frame on which the mouth was measured open, or nothing was
    measured. *)
Definition open_or_unmeasured (threshold : Q) (f : frame) : Prop :=
  match ratios f with
  | None => True
  | Some (_, mar) => threshold < mar
  end.
End FatigueDetector.

(** The analysis as [add_fatigue_data] reads it: it has no
    ['confidence']. *)
Definition as_fatigue_data (analysis : DrowsinessAnalysis.t) : FatigueData.t :=
  {| FatigueData.fatigue_score := Some (DrowsinessAnalysis.fatigue_score analysis);
     FatigueData.blink_detected := Some (DrowsinessAnalysis.blink_detected analysis);
     FatigueData.yawn_detected := Some (DrowsinessAnalysis.yawn_detected analysis);
     FatigueData.ear := Some (DrowsinessAnalysis.ear analysis);
     FatigueData.confidence := None |}.

(** A call that [process_frame] can make: its vision samples are built
    from the lane detector's output and some list of detections. *)
Definition from_process_frame (o : op) : Prop :=
  match o with
  | AddVision _ vision_data =>
    exists detected_objects,
      vision_data = process_frame_vision_data process_lane_output detected_objects
  | _ => True
  end.

(** ** main.py: the frame counter of SmartDriveADAS *)

Module SmartDriveADAS.
(** The three attributes [update_fps] reads and writes; the camera and
    the subsystems stay outside. *)
Record t : Type := mk {
  frame_count : nat;
  fps : Q;
  last_fps_time : Q
}.

(** The three attributes as [__init__] sets them, at clock reading
    [now]. *)
Definition init (now : Q) : t :=
  {| frame_count := 0; fps := 0; last_fps_time := now |}.

Definition update_fps (current_time : Q) (self : t) : t :=
  let self :=
    if Qle_bool 1.0 (current_time - last_fps_time self)
    then {| frame_count := 0;
            fps := inject_Z (Z.of_nat (frame_count self))
                   / (current_time - last_fps_time self);
            last_fps_time := current_time |}
    else self in
  {| frame_count := frame_count self + 1;
     fps := fps self;
     last_fps_time := last_fps_time self |}.

(** The counter after one [update_fps] per clock reading of the list. *)
Definition run_updates (times : list Q) (self : t) : t :=
  fold_left (fun self current_time => update_fps current_time self) times self.
End SmartDriveADAS.

(** * Properties *)

(** ** Comparisons *)

Lemma Qgtb_true (x y : Q) : Qgtb x y = true <-> y < x.
Proof.
  unfold Qgtb. rewrite Qgt_alt.
  destruct (x ?= y); split; intros H; congruence.
Qed.

Lemma Qgtb_false (x y : Q) : Qgtb x y = false <-> x <= y.
Proof.
  unfold Qgtb. rewrite Qle_alt.
  destruct (x ?= y); split; intros H; try congruence; by destruct H.
Qed.


(** ** Bounded histories *)

Section DequeFacts.
Context {A : Type}.
Implicit Types (d : Deque.t A) (x : A) (l : list A).

Lemma deque_append_maxlen d x : Deque.maxlen (Deque.append d x) = Deque.maxlen d.
Proof. unfold Deque.append. by case_match. Qed.

Lemma most_recent_all n l : (length l <= n)%nat -> most_recent n l = l.
Proof.
  intros H. unfold most_recent.
  replace (length l - n)%nat with 0%nat by lia. apply drop_0.
Qed.

Lemma most_recent_length n l : length (most_recent n l) = Nat.min n (length l).
Proof. unfold most_recent. rewrite length_drop. lia. Qed.

Lemma most_recent_snoc n l x :
  most_recent n (most_recent n l ++ [x]) = most_recent n (l ++ [x]).
Proof.
  unfold most_recent.
  destruct n as [| n].
  - rewrite !Nat.sub_0_r. by rewrite !drop_all.
  - rewrite !length_app, length_drop. simpl.
    rewrite !drop_app_le by (rewrite ?length_drop; lia).
    rewrite drop_drop. do 2 f_equal. lia.
Qed.

(** One [append] keeps the most recent [maxlen] items. *)
Lemma deque_append_items d x :
  (length (Deque.items d) <= Deque.maxlen d)%nat ->
  Deque.items (Deque.append d x)
  = most_recent (Deque.maxlen d) (Deque.items d ++ [x]).
Proof.
  intros Hle. unfold Deque.append, most_recent.
  rewrite length_app. simpl.
  destruct (Nat.ltb_spec (Deque.maxlen d) (length (Deque.items d) + 1)) as [Hlt | Hge];
    simpl.
  - replace (length (Deque.items d) + 1 - Deque.maxlen d)%nat with 1%nat by lia.
    by destruct (Deque.items d ++ [x]).
  - replace (length (Deque.items d) + 1 - Deque.maxlen d)%nat with 0%nat by lia.
    by rewrite drop_0.
Qed.

(** Any number of [append]s on an empty deque. *)
Lemma deque_appends n l :
  let d := fold_left Deque.append l (Deque.empty n) in
  Deque.maxlen d = n /\ Deque.items d = most_recent n l.
Proof.
  induction l as [| x l IH] using rev_ind; simpl.
  - split; [done |]. unfold most_recent. by rewrite drop_nil.
  - rewrite fold_left_app. simpl. destruct IH as [Hmax Hitems].
    split; [by rewrite deque_append_maxlen |].
    rewrite deque_append_items.
    + rewrite Hmax, Hitems. apply most_recent_snoc.
    + rewrite Hmax, Hitems, most_recent_length. lia.
Qed.
End DequeFacts.

(** ** Methods that only read [self] *)

Lemma read_only_ret {A} (a : A) : read_only (ret a).
Proof. by intros self. Qed.

Lemma read_only_get : read_only get.
Proof. by intros self. Qed.

Lemma read_only_bind {A B} (m : M A) (k : A -> M B) :
  read_only m -> (forall a, read_only (k a)) -> read_only (bind m k).
Proof.
  intros Hm Hk self. specialize (Hm self).
  unfold exec, bind in *. destruct (m self) as [a self']. simpl in Hm. subst self'.
  apply Hk.
Qed.

Lemma eval_bind_read_only {A B} (m : M A) (k : A -> M B) self :
  read_only m -> eval (bind m k) self = eval (k (eval m self)) self.
Proof.
  intros Hm. specialize (Hm self).
  unfold exec, eval, bind in *. destruct (m self) as [a self']. simpl in *.
  by subst self'.
Qed.

Ltac read_only_step :=
  first [ apply read_only_ret
        | apply read_only_get
        | apply read_only_bind; [| intros ?]
        | progress case_match ].

Lemma calculate_collision_risk_read_only : read_only calculate_collision_risk.
Proof. unfold calculate_collision_risk. repeat read_only_step. Qed.

Lemma calculate_lane_departure_risk_read_only current_time :
  read_only (calculate_lane_departure_risk current_time).
Proof. unfold calculate_lane_departure_risk. repeat read_only_step. Qed.

Lemma calculate_driver_fatigue_risk_read_only :
  read_only calculate_driver_fatigue_risk.
Proof. unfold calculate_driver_fatigue_risk. repeat read_only_step. Qed.

Lemma calculate_aggressive_driving_risk_read_only :
  read_only calculate_aggressive_driving_risk.
Proof. unfold calculate_aggressive_driving_risk. repeat read_only_step. Qed.

Lemma generate_comprehensive_assessment_read_only now current_time :
  read_only (generate_comprehensive_assessment now current_time).
Proof.
  unfold generate_comprehensive_assessment.
  apply read_only_bind; [apply calculate_collision_risk_read_only | intros ?].
  apply read_only_bind; [apply calculate_lane_departure_risk_read_only | intros ?].
  apply read_only_bind; [apply calculate_driver_fatigue_risk_read_only | intros ?].
  apply read_only_bind; [apply calculate_aggressive_driving_risk_read_only | intros ?].
  apply read_only_bind; [apply read_only_get | intros ?].
  apply read_only_ret.
Qed.

Lemma get_data_summary_read_only now : read_only (get_data_summary now).
Proof. unfold get_data_summary. repeat read_only_step. Qed.

Lemma export_data_read_only : read_only export_data.
Proof. unfold export_data. repeat read_only_step. Qed.

(** ** What each mutator changes *)

Lemma add_vision_data_exec now vision_data self :
  exec (add_vision_data now vision_data) self
  = {| buffer_size := buffer_size self;
       vision_buffer :=
         Deque.append (vision_buffer self) (make_vision_entry now vision_data);
       obd_buffer := obd_buffer self;
       fatigue_buffer := fatigue_buffer self;
       weights := weights self;
       alert_thresholds := alert_thresholds self |}.
Proof. reflexivity. Qed.

Lemma add_obd_data_exec now obd_data self :
  exec (add_obd_data now obd_data) self
  = {| buffer_size := buffer_size self;
       vision_buffer := vision_buffer self;
       obd_buffer := Deque.append (obd_buffer self) (make_obd_entry now obd_data);
       fatigue_buffer := fatigue_buffer self;
       weights := weights self;
       alert_thresholds := alert_thresholds self |}.
Proof. reflexivity. Qed.

Lemma add_fatigue_data_exec now fatigue_data self :
  exec (add_fatigue_data now fatigue_data) self
  = {| buffer_size := buffer_size self;
       vision_buffer := vision_buffer self;
       obd_buffer := obd_buffer self;
       fatigue_buffer :=
         Deque.append (fatigue_buffer self) (make_fatigue_entry now fatigue_data);
       weights := weights self;
       alert_thresholds := alert_thresholds self |}.
Proof. reflexivity. Qed.

(** [adjust_fusion_weights] touches [self.weights] only. *)
Lemma adjust_fusion_weights_frame sensor_confidence self :
  let self' := exec (adjust_fusion_weights sensor_confidence) self in
  buffer_size self' = buffer_size self
  /\ vision_buffer self' = vision_buffer self
  /\ obd_buffer self' = obd_buffer self
  /\ fatigue_buffer self' = fatigue_buffer self
  /\ alert_thresholds self' = alert_thresholds self.
Proof.
  unfold adjust_fusion_weights, exec, bind, get. simpl.
  by destruct (Qgtb _ _).
Qed.

Lemma step_read_only_cases (o : op) self :
  match o with
  | Assess _ _ | Summarise _ | ExportData => exec (step o) self = self
  | _ => True
  end.
Proof.
  destruct o; simpl; try exact I;
    (apply read_only_bind; [| intros; apply read_only_ret]).
  - apply generate_comprehensive_assessment_read_only.
  - apply get_data_summary_read_only.
  - apply export_data_read_only.
Qed.

Lemma run_snoc ops o self : run (ops ++ [o]) self = exec (step o) (run ops self).
Proof. unfold run. by rewrite fold_left_app. Qed.

Lemma run_vision_buffer ops self :
  vision_buffer (run ops self)
  = fold_left Deque.append (vision_pushes ops) (vision_buffer self).
Proof.
  induction ops as [| o ops IH] using rev_ind; [done |].
  rewrite run_snoc. unfold vision_pushes in *.
  rewrite flat_map_app, fold_left_app, <- IH. simpl.
  pose proof (step_read_only_cases o (run ops self)) as Hro.
  destruct o; simpl in *; try (by rewrite Hro); try done.
  apply adjust_fusion_weights_frame.
Qed.

Lemma run_obd_buffer ops self :
  obd_buffer (run ops self)
  = fold_left Deque.append (obd_pushes ops) (obd_buffer self).
Proof.
  induction ops as [| o ops IH] using rev_ind; [done |].
  rewrite run_snoc. unfold obd_pushes in *.
  rewrite flat_map_app, fold_left_app, <- IH. simpl.
  pose proof (step_read_only_cases o (run ops self)) as Hro.
  destruct o; simpl in *; try (by rewrite Hro); try done.
  apply adjust_fusion_weights_frame.
Qed.

Lemma run_fatigue_buffer ops self :
  fatigue_buffer (run ops self)
  = fold_left Deque.append (fatigue_pushes ops) (fatigue_buffer self).
Proof.
  induction ops as [| o ops IH] using rev_ind; [done |].
  rewrite run_snoc. unfold fatigue_pushes in *.
  rewrite flat_map_app, fold_left_app, <- IH. simpl.
  pose proof (step_read_only_cases o (run ops self)) as Hro.
  destruct o; simpl in *; try (by rewrite Hro); try done.
  apply adjust_fusion_weights_frame.
Qed.

(** C5. Whatever calls are made on an engine of capacity [n], and however
    many, each history holds at most [n] entries: it holds exactly the
    [n] most recent entries pushed on its channel, in arrival order (all
    of them while no more than [n] were pushed, exactly [n] afterwards). *)
Theorem history_bound_and_retention (n : nat) (ops : list op) :
  let self := run ops (init n) in
  ((length (Deque.items (vision_buffer self)) <= n)%nat
   /\ Deque.items (vision_buffer self) = most_recent n (vision_pushes ops)
   /\ length (Deque.items (vision_buffer self))
      = Nat.min n (length (vision_pushes ops)))
  /\ ((length (Deque.items (obd_buffer self)) <= n)%nat
      /\ Deque.items (obd_buffer self) = most_recent n (obd_pushes ops)
      /\ length (Deque.items (obd_buffer self))
         = Nat.min n (length (obd_pushes ops)))
  /\ ((length (Deque.items (fatigue_buffer self)) <= n)%nat
      /\ Deque.items (fatigue_buffer self) = most_recent n (fatigue_pushes ops)
      /\ length (Deque.items (fatigue_buffer self))
         = Nat.min n (length (fatigue_pushes ops))).
Proof.
  simpl.
  rewrite run_vision_buffer, run_obd_buffer, run_fatigue_buffer. simpl.
  pose proof (deque_appends n (vision_pushes ops)) as [_ Hv].
  pose proof (deque_appends n (obd_pushes ops)) as [_ Ho].
  pose proof (deque_appends n (fatigue_pushes ops)) as [_ Hf].
  rewrite Hv, Ho, Hf, !most_recent_length.
  repeat split; lia.
Qed.

(** ** Fusion weights *)

Lemma Qplus_swap (y a b : Q) : y + a + b = y + b + a.
Proof.
  destruct y as [yn yd], a as [an ad], b as [bn bd]. unfold Qplus. simpl.
  f_equal; [rewrite ?Pos2Z.inj_mul; ring |].
  rewrite <- !Pos.mul_assoc. f_equal. apply Pos.mul_comm.
Qed.

Lemma sum_values_empty : sum_values ∅ = 0.
Proof. apply map_fold_empty. Qed.

Lemma sum_values_insert (m : gmap string Q) k c :
  m !! k = None -> sum_values (<[k := c]> m) = sum_values m + c.
Proof.
  intros Hk. unfold sum_values.
  rewrite map_fold_insert_L; [done | | done].
  intros. apply Qplus_swap.
Qed.

(** A mapping over exactly the three sensors is the one built from its
    three values. *)
Lemma three_keys_map (m : gmap string Q) :
  dom m = weight_keys ->
  exists a b c,
    m = <["vision" := a]> (<["obd" := b]> (<["fatigue" := c]> ∅)).
Proof.
  intros Hdom.
  assert (Hin : forall k, k ∈ weight_keys -> is_Some (m !! k)).
  { intros k Hk. apply elem_of_dom. by rewrite Hdom. }
  destruct (Hin "vision") as [a Ha]; [unfold weight_keys; set_solver |].
  destruct (Hin "obd") as [b Hb]; [unfold weight_keys; set_solver |].
  destruct (Hin "fatigue") as [c Hc]; [unfold weight_keys; set_solver |].
  exists a, b, c. apply map_eq. intros k.
  destruct (decide (k = "vision")) as [-> | Hv]; [by rewrite lookup_insert_eq |].
  rewrite lookup_insert_ne by done.
  destruct (decide (k = "obd")) as [-> | Ho]; [by rewrite lookup_insert_eq |].
  rewrite lookup_insert_ne by done.
  destruct (decide (k = "fatigue")) as [-> | Hf]; [by rewrite lookup_insert_eq |].
  rewrite lookup_insert_ne by done. rewrite lookup_empty.
  apply not_elem_of_dom. rewrite Hdom. unfold weight_keys.
  rewrite !elem_of_union, !elem_of_singleton. tauto.
Qed.

Lemma sum_values_three (a b c : Q) :
  sum_values (<["vision" := a]> (<["obd" := b]> (<["fatigue" := c]> ∅)))
  = 0 + c + b + a.
Proof.
  rewrite !sum_values_insert, sum_values_empty; [done | done | done |].
  by rewrite lookup_insert_ne.
Qed.

(** The loop of [adjust_fusion_weights], key by key: a key of the weights
    that the confidences mention gets [confidence / total]; every other
    key keeps its weight; no key appears or disappears. *)
Lemma adjust_loop_lookup total (w conf : gmap string Q) (k : string) :
  map_fold (adjust_one total) w conf !! k
  = match w !! k with
    | None => None
    | Some old => Some (match conf !! k with
                        | Some c => c / total
                        | None => old
                        end)
    end.
Proof.
  revert k.
  apply (map_fold_weak_ind
           (fun r m => forall k,
                r !! k = match w !! k with
                         | None => None
                         | Some old => Some (match m !! k with
                                             | Some c => c / total
                                             | None => old
                                             end)
                         end)).
  - intros k. rewrite lookup_empty. by destruct (w !! k).
  - intros i x m r Hi IH k. unfold adjust_one.
    pose proof (IH i) as IHi.
    destruct (decide (k = i)) as [-> | Hne].
    + rewrite lookup_insert_eq.
      destruct (w !! i) as [old |]; rewrite IHi; [| done].
      by rewrite lookup_insert_eq.
    + rewrite (lookup_insert_ne m) by done.
      destruct (r !! i); [rewrite lookup_insert_ne by done |]; apply IH.
Qed.

Lemma adjust_loop_dom total (w conf : gmap string Q) :
  dom (map_fold (adjust_one total) w conf) = dom w.
Proof.
  apply set_eq. intros k. rewrite !elem_of_dom, adjust_loop_lookup.
  destruct (w !! k); [| done]. split; eauto.
Qed.

Lemma adjust_fusion_weights_exec sensor_confidence self :
  weights (exec (adjust_fusion_weights sensor_confidence) self)
  = if Qgtb (sum_values sensor_confidence) 0
    then map_fold (adjust_one (sum_values sensor_confidence)) (weights self)
                  sensor_confidence
    else weights self.
Proof.
  unfold adjust_fusion_weights, exec, bind, get. simpl.
  by destruct (Qgtb _ _).
Qed.

(** A confidence mapping whose total is not positive changes nothing. *)
Lemma adjust_fusion_weights_noop sensor_confidence self :
  sum_values sensor_confidence <= 0 ->
  exec (adjust_fusion_weights sensor_confidence) self = self.
Proof.
  intros Hle. apply Qgtb_false in Hle.
  unfold adjust_fusion_weights, exec, bind, get. simpl. by rewrite Hle.
Qed.

(** No call adds or removes a key of [self.weights]. *)
Lemma step_weights_keys o self :
  dom (weights (exec (step o) self)) = dom (weights self).
Proof.
  pose proof (step_read_only_cases o self) as Hro.
  destruct o; simpl in *; try (by rewrite Hro); try done.
  rewrite adjust_fusion_weights_exec.
  destruct (Qgtb _ _); [apply adjust_loop_dom | done].
Qed.

Lemma reachable_weights_keys n self :
  reachable n self -> dom (weights self) = weight_keys.
Proof.
  intros [ops ->].
  induction ops as [| o ops IH] using rev_ind; [done |].
  by rewrite run_snoc, step_weights_keys.
Qed.

Lemma nonneg_values_spec (m : gmap string Q) :
  nonneg_values m = true <-> (forall k v, m !! k = Some v -> 0 <= v).
Proof.
  unfold nonneg_values. rewrite forallb_forall. split.
  - intros H k v Hkv. apply Qle_bool_iff.
    apply (H (k, v)). apply list_elem_of_In. by apply elem_of_map_to_list.
  - intros H [k v] Hin. apply Qle_bool_iff. apply (H k).
    apply elem_of_map_to_list. by apply list_elem_of_In.
Qed.

Lemma getitem_lookup (d : gmap string Q) key v : d !! key = Some v -> getitem d key = v.
Proof. unfold getitem. by intros ->. Qed.

(** After an adjustment with positive total, a weight whose sensor the
    confidences mention is [confidence / total]. *)
Lemma adjust_fusion_weights_getitem self conf key c :
  0 < sum_values conf ->
  key ∈ dom (weights self) ->
  conf !! key = Some c ->
  getitem (weights (exec (adjust_fusion_weights conf) self)) key
  = c / sum_values conf.
Proof.
  intros Hpos Hkey Hc. apply Qgtb_true in Hpos.
  rewrite adjust_fusion_weights_exec, Hpos.
  apply elem_of_dom in Hkey as [old Hold].
  apply getitem_lookup. by rewrite adjust_loop_lookup, Hold, Hc.
Qed.

(** C3 (amended). For a confidence mapping over exactly the three sensors
    [vision], [obd] and [fatigue] whose values all lie in [0, 1] and sum
    to a positive total, the three weights sum to 1 within 1e-6 after
    [adjust_fusion_weights]; for a confidence mapping whose values sum to
    0 or less the call leaves the engine, and so the weights, unchanged. *)
Theorem adjust_weights_normalised (self : SensorFusion) (conf : gmap string Q) :
  (dom (weights self) = weight_keys ->
   dom conf = weight_keys ->
   confidences_in_range conf = true ->
   0 < sum_values conf ->
   Qabs (weights_total (exec (adjust_fusion_weights conf) self) - 1) <= 1e-6)
  /\ (sum_values conf <= 0 ->
      exec (adjust_fusion_weights conf) self = self).
Proof.
  split; [| apply adjust_fusion_weights_noop].
  intros Hw Hconf _ Hpos.
  assert (Hsum : weights_total (exec (adjust_fusion_weights conf) self) == 1).
  { assert (Hkeys : forall k, k ∈ weight_keys -> k ∈ dom (weights self))
      by (intros k; by rewrite Hw).
    destruct (three_keys_map conf Hconf) as (a & b & c & ->).
    unfold weights_total.
    rewrite (adjust_fusion_weights_getitem _ _ "vision" a); [| exact Hpos | |].
    2: { apply Hkeys. unfold weight_keys.
         rewrite !elem_of_union, !elem_of_singleton. tauto. }
    2: { apply lookup_insert_eq. }
    rewrite (adjust_fusion_weights_getitem _ _ "obd" b); [| exact Hpos | |].
    2: { apply Hkeys. unfold weight_keys.
         rewrite !elem_of_union, !elem_of_singleton. tauto. }
    2: { rewrite lookup_insert_ne by discriminate. apply lookup_insert_eq. }
    rewrite (adjust_fusion_weights_getitem _ _ "fatigue" c); [| exact Hpos | |].
    2: { apply Hkeys. unfold weight_keys.
         rewrite !elem_of_union, !elem_of_singleton. tauto. }
    2: { do 2 (rewrite lookup_insert_ne by discriminate). apply lookup_insert_eq. }
    rewrite sum_values_three in *. field. intros Hz. lra. }
  rewrite Hsum. by vm_compute.
Qed.

Lemma adjust_weights_normalised_witness :
  Qabs (weights_total
          (exec (adjust_fusion_weights
                   (<["vision" := 0.9]> (<["obd" := 0.6]> (<["fatigue" := 0.5]> ∅))))
                (init 10)) - 1) <= 1e-6
  /\ exec (adjust_fusion_weights
             (<["vision" := 0]> (<["obd" := 0]> (<["fatigue" := 0]> ∅))))
          (init 10) = init 10.
Proof.
  split.
  - apply (adjust_weights_normalised (init 10)
             (<["vision" := 0.9]> (<["obd" := 0.6]> (<["fatigue" := 0.5]> ∅))));
      vm_compute; reflexivity.
  - apply (adjust_weights_normalised (init 10)
             (<["vision" := 0]> (<["obd" := 0]> (<["fatigue" := 0]> ∅)))).
    vm_compute. discriminate.
Defined.

(** C3, as first stated, fails: a confidence mapping that names the
    vision sensor only has a positive total, and leaves the weights
    1, 0.3 and 0.2, whose sum is 1.5. *)
Lemma adjust_weights_subset_not_normalised :
  let conf : gmap string Q := <["vision" := 1]> ∅ in
  let self := exec (adjust_fusion_weights conf) (init 10) in
  0 < sum_values conf
  /\ weights_total self == 1.5
  /\ ~ (Qabs (weights_total self - 1) <= 1e-6).
Proof.
  simpl. split; [reflexivity |]. split; [reflexivity |].
  vm_compute. intros H. by apply H.
Qed.

(** One adjustment keeps the weights non-negative when no confidence is
    negative. *)
Lemma adjust_fusion_weights_nonneg self conf :
  nonneg_values (weights self) = true ->
  nonneg_values conf = true ->
  nonneg_values (weights (exec (adjust_fusion_weights conf) self)) = true.
Proof.
  rewrite !nonneg_values_spec. intros Hw Hconf k v.
  rewrite adjust_fusion_weights_exec.
  destruct (Qgtb (sum_values conf) 0) eqn:Hpos; [| apply Hw].
  apply Qgtb_true in Hpos.
  rewrite adjust_loop_lookup.
  destruct (weights self !! k) as [old |] eqn:Hold; [| done].
  destruct (conf !! k) as [c |] eqn:Hc; intros [= <-].
  - apply Qle_shift_div_l; [done |]. rewrite Qmult_0_l. by apply (Hconf k).
  - by apply (Hw k).
Qed.

(** C4 (amended). The weights start as 0.5, 0.3 and 0.2; a call of
    [adjust_fusion_weights] whose confidences are all non-negative keeps
    every weight non-negative; so every weight is non-negative in every
    state reached by calls that pass no negative confidence. *)
Theorem weights_nonneg_invariant :
  (forall n,
      getitem (weights (init n)) "vision" = 0.5
      /\ getitem (weights (init n)) "obd" = 0.3
      /\ getitem (weights (init n)) "fatigue" = 0.2
      /\ nonneg_values (weights (init n)) = true)
  /\ (forall self conf,
        nonneg_values (weights self) = true ->
        nonneg_values conf = true ->
        nonneg_values (weights (exec (adjust_fusion_weights conf) self)) = true)
  /\ (forall n ops,
        nonneg_confidences ops = true ->
        nonneg_values (weights (run ops (init n))) = true).
Proof.
  split; [by intros n; vm_compute |].
  split; [apply adjust_fusion_weights_nonneg |].
  intros n ops. induction ops as [| o ops IH] using rev_ind; [done |].
  unfold nonneg_confidences in *. rewrite forallb_app. simpl.
  rewrite andb_true_r, andb_true_iff. intros [Hops Ho].
  rewrite run_snoc. specialize (IH Hops).
  pose proof (step_read_only_cases o (run ops (init n))) as Hro.
  destruct o; simpl in *; try (by rewrite Hro); try done.
  by apply adjust_fusion_weights_nonneg.
Qed.

Lemma weights_nonneg_invariant_witness :
  nonneg_values
    (weights (run [AdjustWeights (<["vision" := 3]> (<["obd" := 1]> ∅));
                   AddVision 0 (VisionData.mk None None None None)]
                  (init 10))) = true.
Proof.
  apply (proj2 (proj2 weights_nonneg_invariant) 10%nat). reflexivity.
Defined.

(** C4, as first stated, fails: a confidence mapping with a negative
    value and a positive total makes a weight negative. *)
Lemma adjust_weights_negative_confidence :
  let conf : gmap string Q := <["vision" := 2]> (<["obd" := -1]> ∅) in
  let self := run [AdjustWeights conf] (init 10) in
  0 < sum_values conf
  /\ getitem (weights self) "obd" == -1
  /\ ~ (0 <= getitem (weights self) "obd").
Proof.
  simpl. split; [reflexivity |]. split; [reflexivity |].
  vm_compute. intros H. by apply H.
Qed.

(** ** Reading methods leave the engine as it was *)

(** C9. [generate_comprehensive_assessment] and [get_data_summary] leave
    the engine exactly as it was: its three histories, its weights and
    its thresholds.  So do the four risk calculations and [export_data];
    the only methods that assign to [self] are the three [add_*_data]
    and [adjust_fusion_weights]. *)
Theorem assessment_and_summary_read_only (self : SensorFusion)
    (now current_time : Q) :
  let after_assessment :=
    exec (generate_comprehensive_assessment now current_time) self in
  let after_summary := exec (get_data_summary now) self in
  (after_assessment = self
   /\ vision_buffer after_assessment = vision_buffer self
   /\ obd_buffer after_assessment = obd_buffer self
   /\ fatigue_buffer after_assessment = fatigue_buffer self
   /\ weights after_assessment = weights self
   /\ alert_thresholds after_assessment = alert_thresholds self)
  /\ (after_summary = self
      /\ vision_buffer after_summary = vision_buffer self
      /\ obd_buffer after_summary = obd_buffer self
      /\ fatigue_buffer after_summary = fatigue_buffer self
      /\ weights after_summary = weights self
      /\ alert_thresholds after_summary = alert_thresholds self)
  /\ exec calculate_collision_risk self = self
  /\ exec (calculate_lane_departure_risk current_time) self = self
  /\ exec calculate_driver_fatigue_risk self = self
  /\ exec calculate_aggressive_driving_risk self = self
  /\ exec export_data self = self.
Proof.
  simpl.
  rewrite (generate_comprehensive_assessment_read_only now current_time self).
  rewrite (get_data_summary_read_only now self).
  repeat split.
  - apply calculate_collision_risk_read_only.
  - apply calculate_lane_departure_risk_read_only.
  - apply calculate_driver_fatigue_risk_read_only.
  - apply calculate_aggressive_driving_risk_read_only.
Qed.

(** ** The assessment, field by field *)

Lemma assessment_risks self now current_time :
  Assessment.risks (eval (generate_comprehensive_assessment now current_time) self)
  = Risks.mk (eval calculate_collision_risk self)
             (eval (calculate_lane_departure_risk current_time) self)
             (eval calculate_driver_fatigue_risk self)
             (eval calculate_aggressive_driving_risk self).
Proof.
  unfold generate_comprehensive_assessment.
  rewrite eval_bind_read_only by apply calculate_collision_risk_read_only.
  rewrite eval_bind_read_only by apply calculate_lane_departure_risk_read_only.
  rewrite eval_bind_read_only by apply calculate_driver_fatigue_risk_read_only.
  rewrite eval_bind_read_only by apply calculate_aggressive_driving_risk_read_only.
  reflexivity.
Qed.

Lemma assessment_alerts self now current_time :
  let a := eval (generate_comprehensive_assessment now current_time) self in
  Assessment.alerts a
  = append_if (Qgtb (risk_of AggressiveDriving (Assessment.risks a))
                    (threshold_of AggressiveDriving (alert_thresholds self)))
      (append_if (Qgtb (risk_of DriverFatigue (Assessment.risks a))
                       (threshold_of DriverFatigue (alert_thresholds self)))
         (append_if (Qgtb (risk_of LaneDeparture (Assessment.risks a))
                          (threshold_of LaneDeparture (alert_thresholds self)))
            (append_if (Qgtb (risk_of Collision (Assessment.risks a))
                             (threshold_of Collision (alert_thresholds self)))
               [] (alert_of Collision))
            (alert_of LaneDeparture))
         (alert_of DriverFatigue))
      (alert_of AggressiveDriving).
Proof.
  simpl. rewrite assessment_risks.
  unfold generate_comprehensive_assessment.
  rewrite eval_bind_read_only by apply calculate_collision_risk_read_only.
  rewrite eval_bind_read_only by apply calculate_lane_departure_risk_read_only.
  rewrite eval_bind_read_only by apply calculate_driver_fatigue_risk_read_only.
  rewrite eval_bind_read_only by apply calculate_aggressive_driving_risk_read_only.
  reflexivity.
Qed.



(** C6. On a freshly constructed engine, of any capacity and at any time,
    the assessment has its four risks equal to 0, no alert, no
    recommendation, and an overall safety score of 100. *)
Theorem empty_state_assessment (n : nat) (now current_time : Q) :
  let a := eval (generate_comprehensive_assessment now current_time) (init n) in
  Risks.collision (Assessment.risks a) == 0
  /\ Risks.lane_departure (Assessment.risks a) == 0
  /\ Risks.driver_fatigue (Assessment.risks a) == 0
  /\ Risks.aggressive_driving (Assessment.risks a) == 0
  /\ Assessment.alerts a = []
  /\ Assessment.recommendations a = []
  /\ Assessment.overall_safety_score a == 100.
Proof. simpl. repeat split; reflexivity. Qed.

(** ** Ingestion *)

Lemma deque_append_latest {A} (d : Deque.t A) (x : A) :
  (0 < Deque.maxlen d)%nat -> Deque.latest (Deque.append d x) = Some x.
Proof.
  intros Hpos. unfold Deque.latest, Deque.append.
  destruct (Nat.ltb_spec (Deque.maxlen d) (length (Deque.items d ++ [x]))) as [Hlt | Hge];
    simpl; [| apply last_snoc].
  destruct (Deque.items d) as [| y l]; simpl in *; [lia | apply last_snoc].
Qed.

(** C2 (amended). Ingestion of a well-typed sample validates nothing and
    rejects nothing.  A sample is well typed when each key the method
    reads is absent or holds a value of the type the method expects (a
    flag, a number, a list of detections, a behaviour analysis); its
    values may lie outside their ranges.  For every such sample and every
    clock reading, [add_vision_data], [add_obd_data] and
    [add_fatigue_data] append to their own history the entry built from
    the sample, which carries the clock reading as its timestamp and, in
    every other field, the sample's value as given, or the default of a
    missing key (a confidence is stored whatever its value); the entry is
    then the latest of its history (capacity permitting); the other two
    histories, the weights and the thresholds are unchanged. *)
Theorem ingest_accepts_every_sample (self : SensorFusion) (now : Q)
    (vision_data : VisionData.t) (obd_data : ObdData.t)
    (fatigue_data : FatigueData.t) :
  let after_vision := exec (add_vision_data now vision_data) self in
  let after_obd := exec (add_obd_data now obd_data) self in
  let after_fatigue := exec (add_fatigue_data now fatigue_data) self in
  let behavior_analysis :=
    default BehaviorAnalysis.empty (ObdData.behavior_analysis obd_data) in
  (vision_buffer after_vision
   = Deque.append (vision_buffer self) (make_vision_entry now vision_data)
   /\ ((0 < Deque.maxlen (vision_buffer self))%nat ->
       Deque.latest (vision_buffer after_vision)
       = Some (make_vision_entry now vision_data))
   /\ make_vision_entry now vision_data
      = VisionEntry.mk
          now
          (default false (VisionData.lane_departure_warning vision_data))
          (default false (VisionData.collision_warning vision_data))
          (length (default [] (VisionData.detected_objects vision_data)))
          (_get_closest_object_distance vision_data)
          (default 1.0 (VisionData.confidence vision_data))
   /\ VisionEntry.timestamp (make_vision_entry now vision_data) = now
   /\ (forall c, VisionData.confidence vision_data = Some c ->
                 VisionEntry.confidence (make_vision_entry now vision_data) = c)
   /\ obd_buffer after_vision = obd_buffer self
   /\ fatigue_buffer after_vision = fatigue_buffer self
   /\ weights after_vision = weights self
   /\ alert_thresholds after_vision = alert_thresholds self)
  /\ (obd_buffer after_obd
      = Deque.append (obd_buffer self) (make_obd_entry now obd_data)
      /\ ((0 < Deque.maxlen (obd_buffer self))%nat ->
          Deque.latest (obd_buffer after_obd) = Some (make_obd_entry now obd_data))
      /\ make_obd_entry now obd_data
         = ObdEntry.mk
             now
             (default 0 (ObdData.speed obd_data))
             (default 0 (ObdData.rpm obd_data))
             (default 0 (ObdData.throttle_position obd_data))
             (default false (BehaviorAnalysis.aggressive_acceleration behavior_analysis))
             (default false (BehaviorAnalysis.aggressive_braking behavior_analysis))
             (default false (BehaviorAnalysis.excessive_speed behavior_analysis))
             (default false (BehaviorAnalysis.engine_stress behavior_analysis))
      /\ ObdEntry.timestamp (make_obd_entry now obd_data) = now
      /\ (forall v, ObdData.speed obd_data = Some v ->
                    ObdEntry.speed (make_obd_entry now obd_data) = v)
      /\ vision_buffer after_obd = vision_buffer self
      /\ fatigue_buffer after_obd = fatigue_buffer self
      /\ weights after_obd = weights self
      /\ alert_thresholds after_obd = alert_thresholds self)
  /\ (fatigue_buffer after_fatigue
      = Deque.append (fatigue_buffer self) (make_fatigue_entry now fatigue_data)
      /\ ((0 < Deque.maxlen (fatigue_buffer self))%nat ->
          Deque.latest (fatigue_buffer after_fatigue)
          = Some (make_fatigue_entry now fatigue_data))
      /\ make_fatigue_entry now fatigue_data
         = FatigueEntry.mk
             now
             (default 0 (FatigueData.fatigue_score fatigue_data))
             (default false (FatigueData.blink_detected fatigue_data))
             (default false (FatigueData.yawn_detected fatigue_data))
             (default 0.3 (FatigueData.ear fatigue_data))
             (default 1.0 (FatigueData.confidence fatigue_data))
      /\ FatigueEntry.timestamp (make_fatigue_entry now fatigue_data) = now
      /\ (forall c, FatigueData.confidence fatigue_data = Some c ->
                    FatigueEntry.confidence (make_fatigue_entry now fatigue_data) = c)
      /\ (forall s, FatigueData.fatigue_score fatigue_data = Some s ->
                    FatigueEntry.fatigue_score (make_fatigue_entry now fatigue_data) = s)
      /\ vision_buffer after_fatigue = vision_buffer self
      /\ obd_buffer after_fatigue = obd_buffer self
      /\ weights after_fatigue = weights self
      /\ alert_thresholds after_fatigue = alert_thresholds self).
Proof.
  cbv zeta.
  rewrite add_vision_data_exec, add_obd_data_exec, add_fatigue_data_exec.
  cbn [vision_buffer obd_buffer fatigue_buffer weights alert_thresholds].
  repeat split; try reflexivity; try (by apply deque_append_latest);
    intros ? H; simpl; by rewrite H.
Qed.

Lemma ingest_accepts_every_sample_witness :
  Deque.latest
    (vision_buffer
       (exec (add_vision_data (-5) (VisionData.mk None None None (Some 7)))
             (init 10)))
  = Some (make_vision_entry (-5) (VisionData.mk None None None (Some 7)))
  /\ make_vision_entry (-5) (VisionData.mk None None None (Some 7))
     = VisionEntry.mk (-5) false false 0 PInf 7.
Proof.
  pose proof (ingest_accepts_every_sample (init 10) (-5)
                (VisionData.mk None None None (Some 7))
                (ObdData.mk None None None None)
                (FatigueData.mk None None None None None)) as [Hv _].
  destruct Hv as (_ & Hlatest & Hentry & _).
  split; [apply Hlatest; simpl; lia | exact Hentry].
Defined.

(** C2, as first stated, fails: a vision sample whose confidence, 7, lies
    outside [0, 1], ingested at the negative clock reading -5, is not
    rejected; it becomes the one entry of the vision history, which is
    therefore not left unchanged. *)
Lemma ingest_accepts_malformed_sample :
  let bad := VisionData.mk None None None (Some 7) in
  let self := exec (add_vision_data (-5) bad) (init 10) in
  ~ (0 <= 7 /\ 7 <= 1)
  /\ Deque.items (vision_buffer self)
     = [ VisionEntry.mk (-5) false false 0 PInf 7 ]
  /\ vision_buffer self <> vision_buffer (init 10).
Proof.
  simpl. split; [| split].
  - intros [_ H]. vm_compute in H. by apply H.
  - reflexivity.
  - discriminate.
Qed.

(** ** Collision risk *)

Lemma collision_risk_eval self :
  eval calculate_collision_risk self
  = match Deque.latest (vision_buffer self), Deque.latest (obd_buffer self) with
    | Some latest_vision, Some latest_obd =>
      Qmin (vision_risk latest_vision * getitem (weights self) "vision"
            + obd_risk latest_obd * getitem (weights self) "obd") 1.0
    | _, _ => 0.0
    end.
Proof.
  unfold calculate_collision_risk, eval, bind, get. simpl.
  by repeat case_match.
Qed.

Lemma with_latest_vision_latest self entry :
  Deque.latest (vision_buffer (with_latest_vision self entry)) = Some entry.
Proof. unfold Deque.latest. simpl. apply last_snoc. Qed.

Lemma vision_risk_set_distance entry d :
  vision_risk (set_distance entry (Fin d))
  = (if VisionEntry.collision_warning entry then 0.0 + 0.8 else 0.0)
    + Qmax 0 (1 - d / 20) * 0.6.
Proof. reflexivity. Qed.

Lemma Qdiv_20 d : d / 20 == d * (1 # 20).
Proof. field. Qed.

Lemma distance_risk_antitone d1 d2 :
  d2 <= d1 -> Qmax 0 (1 - d1 / 20) <= Qmax 0 (1 - d2 / 20).
Proof. intros H. apply Q.max_le_compat_l. rewrite !Qdiv_20. lra. Qed.

Lemma vision_risk_antitone entry d1 d2 :
  d2 <= d1 ->
  vision_risk (set_distance entry (Fin d1)) <= vision_risk (set_distance entry (Fin d2)).
Proof.
  intros H. rewrite !vision_risk_set_distance.
  pose proof (distance_risk_antitone d1 d2 H). lra.
Qed.

Lemma vision_risk_warning entry :
  vision_risk (set_warning entry false) <= vision_risk (set_warning entry true).
Proof.
  unfold vision_risk, set_warning. simpl.
  destruct (VisionEntry.closest_object_distance entry); lra.
Qed.

Lemma collision_total_le (v1 v2 o wv wo : Q) :
  0 <= wv -> v1 <= v2 -> Qmin (v1 * wv + o * wo) 1.0 <= Qmin (v2 * wv + o * wo) 1.0.
Proof.
  intros Hw Hv. apply Q.min_le_compat_r.
  apply Qplus_le_l. by apply Qmult_le_compat_r.
Qed.

(** C8 (amended). Take any engine state and any vision entry as its
    latest one, and hold everything else fixed.  If the vision weight is
    not negative, then a smaller closest distance within [0, 20] never
    gives a smaller collision risk, and the entry with its collision flag
    set never gives a smaller risk than the same entry with the flag
    clear.  The increase need not be strict. *)
Theorem collision_risk_monotone (self : SensorFusion) (entry : VisionEntry.t) :
  0 <= getitem (weights self) "vision" ->
  let risk_at d :=
    eval calculate_collision_risk
         (with_latest_vision self (set_distance entry (Fin d))) in
  let risk_if b :=
    eval calculate_collision_risk
         (with_latest_vision self (set_warning entry b)) in
  (forall d1 d2, 0 <= d2 -> d2 <= d1 -> d1 <= 20 -> risk_at d1 <= risk_at d2)
  /\ risk_if false <= risk_if true.
Proof.
  intros Hw risk_at risk_if. subst risk_at risk_if. cbv beta.
  split.
  - intros d1 d2 _ Hle _.
    rewrite !collision_risk_eval, !with_latest_vision_latest. simpl.
    destruct (Deque.latest (obd_buffer self)) as [latest_obd |]; [| lra].
    apply collision_total_le; [done |]. by apply vision_risk_antitone.
  - rewrite !collision_risk_eval, !with_latest_vision_latest. simpl.
    destruct (Deque.latest (obd_buffer self)) as [latest_obd |]; [| lra].
    apply collision_total_le; [done |]. apply vision_risk_warning.
Qed.

Lemma collision_risk_monotone_witness :
  let self :=
    run [AddVision 0 (VisionData.mk None None None None);
         AddObd 0 (ObdData.mk (Some 90) None None None)]
        (init 10) in
  let entry := VisionEntry.mk 1 false false 1 (Fin 10) 1 in
  eval calculate_collision_risk
       (with_latest_vision self (set_distance entry (Fin 10)))
  <= eval calculate_collision_risk
       (with_latest_vision self (set_distance entry (Fin 5)))
  /\ eval calculate_collision_risk
        (with_latest_vision self (set_warning entry false))
     <= eval calculate_collision_risk
        (with_latest_vision self (set_warning entry true)).
Proof.
  split.
  - apply (collision_risk_monotone
             (run [AddVision 0 (VisionData.mk None None None None);
                   AddObd 0 (ObdData.mk (Some 90) None None None)]
                  (init 10))
             (VisionEntry.mk 1 false false 1 (Fin 10) 1));
      vm_compute; discriminate.
  - apply (collision_risk_monotone
             (run [AddVision 0 (VisionData.mk None None None None);
                   AddObd 0 (ObdData.mk (Some 90) None None None)]
                  (init 10))
             (VisionEntry.mk 1 false false 1 (Fin 10) 1));
      vm_compute; discriminate.
Defined.

(** C8, as first stated, fails.  With the default weights and an empty
    OBD history the risk is 0 at 10 m and at 5 m: it neither increases
    nor sits at the cap.  After an adjustment that makes the vision
    weight negative the risk decreases as the object comes closer, and
    decreases when the collision flag is set. *)
Lemma collision_risk_not_monotone :
  let entry := VisionEntry.mk 1 false false 1 (Fin 10) 1 in
  let risk_at self d :=
    eval calculate_collision_risk
         (with_latest_vision self (set_distance entry (Fin d))) in
  let risk_if self b :=
    eval calculate_collision_risk
         (with_latest_vision self (set_warning entry b)) in
  let lone := init 10 in
  let skewed :=
    run [AdjustWeights (<["vision" := -1]> (<["obd" := 2]> ∅));
         AddObd 0 (ObdData.mk None None None None)]
        (init 10) in
  (risk_at lone 10 == 0 /\ risk_at lone 5 == 0
   /\ ~ (risk_at lone 10 < risk_at lone 5 \/ risk_at lone 5 == 1))
  /\ (risk_at skewed 10 == -0.3 /\ risk_at skewed 5 == -0.45
      /\ ~ (risk_at skewed 10 <= risk_at skewed 5))
  /\ ~ (risk_if skewed false <= risk_if skewed true).
Proof.
  cbv zeta. split; [| split].
  - split; [reflexivity |]. split; [reflexivity |].
    intros [H | H]; vm_compute in H; discriminate.
  - split; [reflexivity |]. split; [reflexivity |].
    intros H. vm_compute in H. by apply H.
  - intros H. vm_compute in H. by apply H.
Qed.

(** C1 (amended). In every engine state in which the vision history or
    the OBD history is empty, the collision risk is 0, whatever the other
    history holds; the two contributions are combined, as
    min(visionRisk * weights.vision + obdRisk * weights.obd, 1) over the
    latest entries, only when both histories are non-empty. *)
Theorem collision_risk_needs_both_histories (self : SensorFusion) :
  (Deque.items (vision_buffer self) = [] \/ Deque.items (obd_buffer self) = [] ->
   eval calculate_collision_risk self = 0.0)
  /\ (forall latest_vision latest_obd,
        Deque.latest (vision_buffer self) = Some latest_vision ->
        Deque.latest (obd_buffer self) = Some latest_obd ->
        eval calculate_collision_risk self
        = Qmin (vision_risk latest_vision * getitem (weights self) "vision"
                + obd_risk latest_obd * getitem (weights self) "obd") 1.0).
Proof.
  split.
  - rewrite collision_risk_eval. unfold Deque.latest.
    intros [-> | ->]; simpl; [done |].
    by destruct (last (Deque.items (vision_buffer self))).
  - intros latest_vision latest_obd Hv Ho.
    by rewrite collision_risk_eval, Hv, Ho.
Qed.

Lemma collision_risk_needs_both_histories_witness :
  eval calculate_collision_risk
       (exec (add_vision_data 0 (VisionData.mk None (Some true) None None))
             (init 10)) = 0.0.
Proof.
  apply (collision_risk_needs_both_histories
           (exec (add_vision_data 0 (VisionData.mk None (Some true) None None))
                 (init 10))).
  right. reflexivity.
Defined.

(** C1, as first stated, fails: with one vision entry whose collision
    flag is set, and no OBD entry, the claimed risk is
    clamp(0.8 * 0.5, 0, 1) = 0.4, and the computed risk is 0. *)
Lemma collision_risk_ignores_lone_vision_history :
  let self :=
    exec (add_vision_data 0 (VisionData.mk None (Some true) None None))
         (init 10) in
  let latest_vision := VisionEntry.mk 0 false true 0 PInf 1.0 in
  Deque.latest (vision_buffer self) = Some latest_vision
  /\ Deque.items (obd_buffer self) = []
  /\ Qmin (Qmax 0 (vision_risk latest_vision * getitem (weights self) "vision")) 1
     == 0.4
  /\ eval calculate_collision_risk self == 0
  /\ ~ (eval calculate_collision_risk self
        == Qmin (Qmax 0 (vision_risk latest_vision
                         * getitem (weights self) "vision")) 1).
Proof.
  cbv zeta. repeat split; try reflexivity.
  intros H. vm_compute in H. discriminate.
Qed.

(** ** The closest detected object *)

Lemma truthy_false_iff (d : option num) :
  truthy d = false <-> d = None \/ exists q, d = Some (Fin q) /\ q == 0.
Proof.
  destruct d as [[q |] |]; simpl.
  - rewrite negb_false_iff, Qeq_bool_iff. split.
    + intros H. right. by exists q.
    + intros [H | (q' & [= <-] & H)]; done.
  - split; [done |]. intros [H | (q' & H & _)]; done.
  - split; [by left | done].
Qed.

Lemma filter_truthy_app (l1 l2 : list DetectedObject) obj :
  missing_or_zero obj ->
  List.filter (fun obj => truthy (distance obj)) (l1 ++ obj :: l2)
  = List.filter (fun obj => truthy (distance obj)) (l1 ++ l2).
Proof.
  intros Hobj. apply truthy_false_iff in Hobj.
  rewrite !List.filter_app. simpl. by rewrite Hobj.
Qed.

Lemma filter_truthy_all_excluded (objects : list DetectedObject) :
  Forall missing_or_zero objects ->
  List.filter (fun obj => truthy (distance obj)) objects = [].
Proof.
  induction 1 as [| obj objects Hobj _ IH]; [done |].
  apply truthy_false_iff in Hobj. simpl. by rewrite Hobj.
Qed.

(** The closest distance is a function of the detections that carry a
    usable distance. *)
Lemma closest_distance_by_filter (vision_data : VisionData.t) :
  _get_closest_object_distance vision_data
  = match map (fun obj => default PInf (distance obj))
              (List.filter (fun obj => truthy (distance obj))
                 (default [] (VisionData.detected_objects vision_data))) with
    | [] => PInf
    | d :: ds => min_from d ds
    end.
Proof.
  unfold _get_closest_object_distance.
  by destruct (default [] (VisionData.detected_objects vision_data)).
Qed.

Lemma deque_append_latest_cases {A} (d : Deque.t A) (x : A) :
  Deque.latest (Deque.append d x)
  = if ((Deque.maxlen d =? 0) && (length (Deque.items d) =? 0))%nat
    then None else Some x.
Proof.
  unfold Deque.latest, Deque.append.
  destruct (Nat.ltb_spec (Deque.maxlen d) (length (Deque.items d ++ [x]))) as [Hlt | Hge];
    simpl.
  - destruct (Deque.items d) as [| y l]; simpl in *.
    + by replace (Deque.maxlen d) with 0%nat by lia.
    + rewrite andb_false_r. apply last_snoc.
  - rewrite length_app in Hge. simpl in Hge.
    destruct (Nat.eqb_spec (Deque.maxlen d) 0) as [Hz | _]; [lia |].
    apply last_snoc.
Qed.

(** C10. A detection whose distance is missing, or exactly 0, is left out
    of the closest distance: the result is the same with and without it.
    When every detection is such, or there is none, the closest distance
    is infinite and the distance term adds nothing to the vision risk;
    the collision risk after ingesting such a sample is the one after
    ingesting the same sample without any detection. *)
Theorem zero_distance_objects_excluded (vision_data : VisionData.t)
    (self : SensorFusion) (now : Q) :
  (forall before after obj,
      missing_or_zero obj ->
      _get_closest_object_distance
        (with_objects vision_data (before ++ obj :: after))
      = _get_closest_object_distance (with_objects vision_data (before ++ after)))
  /\ (Forall missing_or_zero
             (default [] (VisionData.detected_objects vision_data)) ->
      _get_closest_object_distance vision_data = PInf
      /\ vision_risk (make_vision_entry now vision_data)
         = (if default false (VisionData.collision_warning vision_data)
            then 0.0 + 0.8 else 0.0)
      /\ eval calculate_collision_risk
              (exec (add_vision_data now vision_data) self)
         = eval calculate_collision_risk
                (exec (add_vision_data now (with_objects vision_data [])) self)).
Proof.
  split.
  - intros before after obj Hobj.
    rewrite !closest_distance_by_filter. simpl.
    by rewrite filter_truthy_app.
  - intros Hall.
    assert (Hinf : _get_closest_object_distance vision_data = PInf).
    { rewrite closest_distance_by_filter.
      by rewrite filter_truthy_all_excluded. }
    assert (Hrisk : forall vd,
               _get_closest_object_distance vd = PInf ->
               vision_risk (make_vision_entry now vd)
               = (if default false (VisionData.collision_warning vd)
                  then 0.0 + 0.8 else 0.0)).
    { intros vd Hvd. unfold vision_risk, make_vision_entry. simpl.
      by rewrite Hvd. }
    split; [done |]. split; [by apply Hrisk |].
    rewrite !collision_risk_eval, !add_vision_data_exec. simpl.
    rewrite !deque_append_latest_cases.
    destruct (_ && _); [done |].
    destruct (Deque.latest (obd_buffer self)); [| done].
    by rewrite !Hrisk.
Qed.

Lemma zero_distance_objects_excluded_witness :
  let sample :=
    VisionData.mk None (Some true)
      (Some [ {| distance := Some (Fin 0) |}; {| distance := None |} ]) None in
  _get_closest_object_distance sample = PInf
  /\ vision_risk (make_vision_entry 0 sample) = 0.0 + 0.8.
Proof.
  pose proof (zero_distance_objects_excluded
                (VisionData.mk None (Some true)
                   (Some [ {| distance := Some (Fin 0) |};
                           {| distance := None |} ]) None)
                (init 10) 0) as [_ H].
  destruct H as (Hinf & Hrisk & _).
  - simpl.
    constructor; [right; exists 0; split; reflexivity |].
    constructor; [left; reflexivity |].
    constructor.
  - split; [exact Hinf | exact Hrisk].
Defined.

(** ** The two scenarios of the specification *)

(** One vision sample with the collision flag set and an object at 5 m,
    one bus sample at 90 km/h with aggressive acceleration, default
    weights: the collision risk is 0.751 and the collision alert is
    raised. *)
Example scenario_collision_alert :
  let self :=
    run [AddVision 0 (VisionData.mk None (Some true)
                        (Some [ {| distance := Some (Fin 5.0) |} ]) None);
         AddObd 0 (ObdData.mk (Some 90) None None
                     (Some (BehaviorAnalysis.mk (Some true) None None None)))]
        (init 10) in
  let a := eval (generate_comprehensive_assessment 1 1) self in
  Risks.collision (Assessment.risks a) == 0.751
  /\ alerts_for Collision (Assessment.alerts a) = [collision_alert].
Proof. split; reflexivity. Qed.

(** Eleven bus samples into a history of capacity 10, the first one alone
    flagged for excessive speed: the flagged sample is evicted and the
    aggressive-driving risk is 0. *)
Example scenario_eviction :
  let flagged :=
    ObdData.mk None None None
      (Some (BehaviorAnalysis.mk None None (Some true) None)) in
  let calm := ObdData.mk None None None None in
  let self :=
    run (AddObd 0 flagged :: map (fun _ => AddObd 1 calm) (seq 0 10)) (init 10) in
  Deque.len (obd_buffer self) = 10%nat
  /\ eval calculate_aggressive_driving_risk self == 0.
Proof. split; reflexivity. Qed.

(** * Further properties of the fusion engine *)

(** ** Ratios of counts *)

Lemma ratio_nonneg (n m : nat) : 0 <= ratio n m.
Proof.
  unfold ratio, Qdiv. apply Qmult_le_0_compat.
  - unfold Qle. simpl. lia.
  - apply Qinv_le_0_compat. unfold Qle. simpl. lia.
Qed.

Lemma ratio_zero (m : nat) : ratio 0 m == 0.
Proof. unfold ratio, Qdiv. simpl. apply Qmult_0_l. Qed.

Lemma ratio_le_1 (n m : nat) : (n <= m)%nat -> ratio n m <= 1.
Proof.
  intros Hle. unfold ratio.
  destruct m as [| m].
  - unfold Qdiv, Qle. simpl. lia.
  - apply Qle_shift_div_r.
    + unfold Qlt. simpl. lia.
    + rewrite Qmult_1_l. rewrite <- Zle_Qle. lia.
Qed.

Lemma ratio_full (m : nat) : (0 < m)%nat -> ratio m m == 1.
Proof.
  intros Hm. unfold ratio. field. intros H.
  unfold Qeq in H. simpl in H. lia.
Qed.

Lemma ratio_pos (n m : nat) : (0 < n)%nat -> (0 < m)%nat -> 0 < ratio n m.
Proof.
  intros Hn Hm. unfold ratio. apply Qlt_shift_div_l.
  - unfold Qlt. simpl. lia.
  - rewrite Qmult_0_l. unfold Qlt. simpl. lia.
Qed.

Lemma ratio_lt_1 (n m : nat) : (n < m)%nat -> ratio n m < 1.
Proof.
  intros Hlt. unfold ratio. apply Qlt_shift_div_r.
  - unfold Qlt. simpl. lia.
  - rewrite Qmult_1_l. rewrite <- Zlt_Qlt. lia.
Qed.

(** ** Capping at 1.0 *)

Lemma cap_le_1 (x : Q) : Qmin x 1.0 <= 1.
Proof. apply Q.min_le_iff. by right. Qed.

Lemma cap_nonneg (x : Q) : 0 <= x -> 0 <= Qmin x 1.0.
Proof. intros H. by apply Q.min_glb. Qed.

Lemma cap_id (x : Q) : x <= 1 -> Qmin x 1.0 == x.
Proof. intros H. apply Q.min_l. lra. Qed.

(** ** Lane departure risk *)

Lemma lane_departure_risk_eval current_time self :
  eval (calculate_lane_departure_risk current_time) self
  = match Deque.items (vision_buffer self) with
    | [] => 0.0
    | _ =>
      Qmin (ratio (count_recent_warnings current_time
                     (rev (Deque.items (vision_buffer self))) 0)
                  (Deque.len (vision_buffer self))) 1.0
    end.
Proof.
  unfold calculate_lane_departure_risk, eval, bind, get. simpl.
  by destruct (Deque.items (vision_buffer self)).
Qed.

(** The loop counts within the entries it is given, from its start
    value. *)
Lemma count_recent_warnings_bounds current_time entries acc :
  (acc <= count_recent_warnings current_time entries acc
   /\ count_recent_warnings current_time entries acc <= acc + length entries)%nat.
Proof.
  revert acc. induction entries as [| entry rest IH]; intros acc; simpl; [lia |].
  destruct (Qgtb _ _); [lia |].
  destruct (VisionEntry.lane_departure entry);
    [specialize (IH (S acc)) | specialize (IH acc)]; lia.
Qed.

(** While no entry is older than five seconds the loop counts every
    flagged entry. *)
Lemma count_recent_warnings_fresh current_time entries acc :
  Forall (fun entry => current_time - VisionEntry.timestamp entry <= 5) entries ->
  count_recent_warnings current_time entries acc
  = (acc + length (List.filter VisionEntry.lane_departure entries))%nat.
Proof.
  intros Hfresh. revert acc.
  induction Hfresh as [| entry rest Hentry _ IH]; intros acc; simpl; [lia |].
  apply Qgtb_false in Hentry. rewrite Hentry.
  destruct (VisionEntry.lane_departure entry); rewrite IH; simpl; lia.
Qed.

(** X1. The lane departure risk of any engine state, at any time, lies
    between 0 and 1. *)
Theorem lane_departure_risk_bounds (self : SensorFusion) (current_time : Q) :
  0 <= eval (calculate_lane_departure_risk current_time) self
  /\ eval (calculate_lane_departure_risk current_time) self <= 1.
Proof.
  rewrite lane_departure_risk_eval.
  destruct (Deque.items (vision_buffer self)) as [| entry rest]; [by split |].
  split; [apply cap_nonneg, ratio_nonneg | apply cap_le_1].
Qed.

(** X2. When the newest vision entry is more than five seconds old the
    lane departure risk is 0, whatever the history holds: the scan stops
    at the first old entry it meets, starting from the newest. *)
Theorem lane_departure_risk_stale_latest (self : SensorFusion)
    (current_time : Q) (latest_vision : VisionEntry.t) :
  Deque.latest (vision_buffer self) = Some latest_vision ->
  5 < current_time - VisionEntry.timestamp latest_vision ->
  eval (calculate_lane_departure_risk current_time) self == 0.
Proof.
  intros Hlatest Hold. apply Qgtb_true in Hold.
  rewrite lane_departure_risk_eval.
  unfold Deque.latest in Hlatest.
  apply last_Some in Hlatest as [older Hitems]. rewrite Hitems.
  destruct (older ++ [latest_vision]) as [| x l] eqn:Hsplit;
    [by destruct older |].
  rewrite <- Hsplit, rev_app_distr. simpl. rewrite Hold.
  rewrite ratio_zero. reflexivity.
Qed.

Lemma lane_departure_risk_stale_latest_witness :
  eval (calculate_lane_departure_risk 10)
       (run [AddVision 0 (VisionData.mk (Some true) None None None);
             AddVision 1 (VisionData.mk (Some true) None None None)]
            (init 10)) == 0.
Proof.
  apply (lane_departure_risk_stale_latest
           (run [AddVision 0 (VisionData.mk (Some true) None None None);
                 AddVision 1 (VisionData.mk (Some true) None None None)]
                (init 10))
           10
           (make_vision_entry 1 (VisionData.mk (Some true) None None None)));
    reflexivity.
Defined.

(** X3. When no vision entry is more than five seconds old, the lane
    departure risk is the fraction of the buffered entries that carry a
    lane departure flag. *)
Theorem lane_departure_risk_all_fresh (self : SensorFusion) (current_time : Q) :
  Deque.items (vision_buffer self) <> [] ->
  Forall (fun entry => current_time - VisionEntry.timestamp entry <= 5)
         (Deque.items (vision_buffer self)) ->
  eval (calculate_lane_departure_risk current_time) self
  == ratio (length (List.filter VisionEntry.lane_departure
                      (Deque.items (vision_buffer self))))
           (length (Deque.items (vision_buffer self))).
Proof.
  intros Hne Hfresh. rewrite lane_departure_risk_eval.
  destruct (Deque.items (vision_buffer self)) as [| entry rest] eqn:Hitems;
    [done |].
  rewrite count_recent_warnings_fresh.
  2: { apply Forall_forall. intros x Hx. apply (proj1 (Forall_forall _ _) Hfresh).
       apply list_elem_of_In. apply list_elem_of_In in Hx.
       by apply in_rev. }
  unfold Deque.len. rewrite Hitems, Nat.add_0_l.
  assert (Hcount : length (List.filter VisionEntry.lane_departure (rev (entry :: rest)))
                   = length (List.filter VisionEntry.lane_departure (entry :: rest))).
  { by rewrite List.filter_rev, length_rev. }
  rewrite Hcount. apply cap_id, ratio_le_1.
  apply List.filter_length_le.
Qed.

Lemma lane_departure_risk_all_fresh_witness :
  eval (calculate_lane_departure_risk 3)
       (run [AddVision 0 (VisionData.mk (Some true) None None None);
             AddVision 1 (VisionData.mk (Some false) None None None)]
            (init 10))
  == ratio 1 2.
Proof.
  apply (lane_departure_risk_all_fresh
           (run [AddVision 0 (VisionData.mk (Some true) None None None);
                 AddVision 1 (VisionData.mk (Some false) None None None)]
                (init 10)) 3).
  - discriminate.
  - simpl. repeat constructor; vm_compute; discriminate.
Defined.

(** ** Driver fatigue and aggressive driving risks *)

Lemma driver_fatigue_risk_eval self :
  eval calculate_driver_fatigue_risk self
  = match Deque.latest (fatigue_buffer self) with
    | None => 0.0
    | Some latest_fatigue =>
      Qmin (if (2 <? length (List.filter FatigueEntry.yawn_detected
                               (Deque.items (fatigue_buffer self))))%nat
            then FatigueEntry.fatigue_score latest_fatigue / 100 + 0.2
            else FatigueEntry.fatigue_score latest_fatigue / 100) 1.0
    end.
Proof.
  unfold calculate_driver_fatigue_risk, eval, bind, get. simpl.
  by destruct (Deque.latest (fatigue_buffer self)).
Qed.

Lemma Qdiv_100 x : x / 100 == x * (1 # 100).
Proof. field. Qed.

(** X4. The driver fatigue risk never exceeds 1, and it is not negative
    unless the latest fatigue score is. *)
Theorem driver_fatigue_risk_bounds (self : SensorFusion) :
  eval calculate_driver_fatigue_risk self <= 1
  /\ ((forall latest_fatigue,
          Deque.latest (fatigue_buffer self) = Some latest_fatigue ->
          0 <= FatigueEntry.fatigue_score latest_fatigue) ->
      0 <= eval calculate_driver_fatigue_risk self).
Proof.
  rewrite driver_fatigue_risk_eval.
  destruct (Deque.latest (fatigue_buffer self)) as [latest_fatigue |];
    [| by split].
  split; [apply cap_le_1 |].
  intros Hscore. specialize (Hscore latest_fatigue eq_refl).
  apply cap_nonneg. destruct (_ <? _)%nat; rewrite Qdiv_100; lra.
Qed.

Lemma driver_fatigue_risk_bounds_witness :
  0 <= eval calculate_driver_fatigue_risk
            (run [AddFatigue 0 (FatigueData.mk (Some 130) None (Some true) None None)]
                 (init 10)).
Proof.
  apply (driver_fatigue_risk_bounds
           (run [AddFatigue 0 (FatigueData.mk (Some 130) None (Some true) None None)]
                (init 10))).
  intros latest_fatigue [= <-]. vm_compute. discriminate.
Defined.

Lemma aggressive_driving_risk_eval self :
  eval calculate_aggressive_driving_risk self
  = match Deque.items (obd_buffer self) with
    | [] => 0.0
    | _ =>
      if (0 <? Deque.len (obd_buffer self))%nat
      then ratio (length (List.filter is_aggressive (Deque.items (obd_buffer self))))
                 (Deque.len (obd_buffer self))
      else 0.0
    end.
Proof.
  unfold calculate_aggressive_driving_risk, eval, bind, get. simpl.
  by destruct (Deque.items (obd_buffer self)).
Qed.

Lemma filter_none_length {A} (f : A -> bool) (l : list A) :
  length (List.filter f l) = 0%nat <-> Forall (fun x => f x = false) l.
Proof.
  induction l as [| x l IH]; simpl; [by split |].
  destruct (f x) eqn:Hx; simpl.
  - split; [lia |]. intros H. apply Forall_cons in H as [H _]. congruence.
  - rewrite IH. split; [by constructor |].
    intros H. by apply Forall_cons in H as [_ H].
Qed.

Lemma filter_all_length {A} (f : A -> bool) (l : list A) :
  length (List.filter f l) = length l <-> Forall (fun x => f x = true) l.
Proof.
  induction l as [| x l IH]; simpl; [by split |].
  pose proof (List.filter_length_le f l) as Hle.
  destruct (f x) eqn:Hx; simpl.
  - split.
    + intros [= H]. constructor; [done | by apply IH].
    + intros H. apply Forall_cons in H as [_ H]. f_equal. by apply IH.
  - split; [lia |]. intros H. apply Forall_cons in H as [H _]. congruence.
Qed.

(** X5. The aggressive driving risk lies between 0 and 1; it is 0 exactly
    when no buffered OBD entry carries one of the four behaviour flags,
    and, on a non-empty history, 1 exactly when every entry carries
    one. *)
Theorem aggressive_driving_risk_range (self : SensorFusion) :
  let risk := eval calculate_aggressive_driving_risk self in
  let entries := Deque.items (obd_buffer self) in
  (0 <= risk /\ risk <= 1)
  /\ (risk == 0 <-> Forall (fun entry => is_aggressive entry = false) entries)
  /\ (entries <> [] ->
      (risk == 1 <-> Forall (fun entry => is_aggressive entry = true) entries)).
Proof.
  cbv zeta. rewrite aggressive_driving_risk_eval. unfold Deque.len.
  destruct (Deque.items (obd_buffer self)) as [| entry rest] eqn:Hitems.
  - split; [by split |]. split; [by split | done].
  - set (entries := entry :: rest).
    set (count := length (List.filter is_aggressive entries)).
    assert (Hlen : (0 < length entries)%nat) by (simpl; lia).
    assert (Hcount : (count <= length entries)%nat)
      by apply List.filter_length_le.
    apply Nat.ltb_lt in Hlen as Hltb. rewrite Hltb.
    split; [split; [apply ratio_nonneg | by apply ratio_le_1] |].
    split; [| intros _].
    + rewrite <- filter_none_length. fold count. split.
      * intros Hzero. destruct count as [| c]; [done |].
        pose proof (ratio_pos (S c) (length entries)) as Hpos.
        rewrite Hzero in Hpos. apply Qlt_irrefl in Hpos; [done | lia | lia].
      * intros ->. apply ratio_zero.
    + rewrite <- filter_all_length. fold count. split.
      * intros Hone. destruct (decide (count = length entries)) as [| Hne]; [done |].
        pose proof (ratio_lt_1 count (length entries)) as Hlt.
        rewrite Hone in Hlt. apply Qlt_irrefl in Hlt; [done | lia].
      * intros ->. by apply ratio_full.
Qed.

Lemma aggressive_driving_risk_range_witness :
  eval calculate_aggressive_driving_risk
       (run [AddObd 0 (ObdData.mk None None None
                         (Some (BehaviorAnalysis.mk None None None (Some true))))]
            (init 10)) == 1.
Proof.
  apply (aggressive_driving_risk_range
           (run [AddObd 0 (ObdData.mk None None None
                             (Some (BehaviorAnalysis.mk None None None (Some true))))]
                (init 10))).
  - discriminate.
  - simpl. by repeat constructor.
Defined.

(** ** Bounds of the collision risk and of the safety score *)

Lemma vision_risk_nonneg (latest_vision : VisionEntry.t) :
  0 <= vision_risk latest_vision.
Proof.
  unfold vision_risk.
  destruct (VisionEntry.collision_warning latest_vision),
           (VisionEntry.closest_object_distance latest_vision) as [d |];
    try (pose proof (Q.le_max_l 0 (1 - d / 20))); lra.
Qed.

Lemma obd_risk_nonneg (latest_obd : ObdEntry.t) : 0 <= obd_risk latest_obd.
Proof.
  unfold obd_risk.
  destruct (Qgtb (ObdEntry.speed latest_obd) 60) eqn:Hspeed;
    [apply Qgtb_true in Hspeed |];
    destruct (_ || _); rewrite ?Qdiv_100; lra.
Qed.

(** X6. The collision risk never exceeds 1, and it is not negative when
    neither the vision weight nor the OBD weight is. *)
Theorem collision_risk_bounds (self : SensorFusion) :
  eval calculate_collision_risk self <= 1
  /\ (0 <= getitem (weights self) "vision" ->
      0 <= getitem (weights self) "obd" ->
      0 <= eval calculate_collision_risk self).
Proof.
  rewrite collision_risk_eval.
  destruct (Deque.latest (vision_buffer self)) as [latest_vision |];
    [| by split].
  destruct (Deque.latest (obd_buffer self)) as [latest_obd |]; [| by split].
  split; [apply cap_le_1 |]. intros Hv Ho. apply cap_nonneg.
  pose proof (Qmult_le_0_compat _ _ (vision_risk_nonneg latest_vision) Hv).
  pose proof (Qmult_le_0_compat _ _ (obd_risk_nonneg latest_obd) Ho).
  lra.
Qed.

Lemma collision_risk_bounds_witness :
  0 <= eval calculate_collision_risk
            (run [AddVision 0 (VisionData.mk None (Some true) None None);
                  AddObd 0 (ObdData.mk (Some 200) None None None)]
                 (init 10)).
Proof.
  apply (collision_risk_bounds
           (run [AddVision 0 (VisionData.mk None (Some true) None None);
                 AddObd 0 (ObdData.mk (Some 200) None None None)]
                (init 10)));
    vm_compute; discriminate.
Defined.

Lemma assessment_score self now current_time :
  let a := eval (generate_comprehensive_assessment now current_time) self in
  Assessment.overall_safety_score a
  = Qmax 0 (100 - (Risks.collision (Assessment.risks a) * 0.4
                   + Risks.lane_departure (Assessment.risks a) * 0.2
                   + Risks.driver_fatigue (Assessment.risks a) * 0.3
                   + Risks.aggressive_driving (Assessment.risks a) * 0.1) * 100).
Proof.
  simpl. rewrite assessment_risks.
  unfold generate_comprehensive_assessment.
  rewrite eval_bind_read_only by apply calculate_collision_risk_read_only.
  rewrite eval_bind_read_only by apply calculate_lane_departure_risk_read_only.
  rewrite eval_bind_read_only by apply calculate_driver_fatigue_risk_read_only.
  rewrite eval_bind_read_only by apply calculate_aggressive_driving_risk_read_only.
  reflexivity.
Qed.

Lemma assessment_recommendations self now current_time :
  let a := eval (generate_comprehensive_assessment now current_time) self in
  Assessment.recommendations a
  = append_if (Qgtb (Risks.aggressive_driving (Assessment.risks a)) 0.4)
      (append_if (Qgtb (Risks.driver_fatigue (Assessment.risks a)) 0.5)
         (append_if (Qgtb (Risks.collision (Assessment.risks a)) 0.3)
            [] "Increase following distance")
         "Consider taking a break")
      "Reduce acceleration and maintain steady speed".
Proof.
  simpl. rewrite assessment_risks.
  unfold generate_comprehensive_assessment.
  rewrite eval_bind_read_only by apply calculate_collision_risk_read_only.
  rewrite eval_bind_read_only by apply calculate_lane_departure_risk_read_only.
  rewrite eval_bind_read_only by apply calculate_driver_fatigue_risk_read_only.
  rewrite eval_bind_read_only by apply calculate_aggressive_driving_risk_read_only.
  reflexivity.
Qed.

Lemma aggressive_driving_risk_le_1 self :
  0 <= eval calculate_aggressive_driving_risk self
  /\ eval calculate_aggressive_driving_risk self <= 1.
Proof.
  rewrite aggressive_driving_risk_eval. unfold Deque.len.
  destruct (Deque.items (obd_buffer self)) as [| entry rest]; [by split |].
  destruct (_ <? _)%nat; [| by split].
  split; [apply ratio_nonneg | apply ratio_le_1, List.filter_length_le].
Qed.

Lemma lane_departure_risk_le_1 self current_time :
  0 <= eval (calculate_lane_departure_risk current_time) self
  /\ eval (calculate_lane_departure_risk current_time) self <= 1.
Proof.
  rewrite lane_departure_risk_eval.
  destruct (Deque.items (vision_buffer self)) as [| entry rest]; [by split |].
  split; [apply cap_nonneg, ratio_nonneg | apply cap_le_1].
Qed.

Lemma driver_fatigue_risk_le_1 self :
  eval calculate_driver_fatigue_risk self <= 1.
Proof.
  rewrite driver_fatigue_risk_eval.
  destruct (Deque.latest (fatigue_buffer self)); [apply cap_le_1 | done].
Qed.

Lemma collision_risk_le_1 self : eval calculate_collision_risk self <= 1.
Proof.
  rewrite collision_risk_eval.
  destruct (Deque.latest (vision_buffer self)); [| done].
  destruct (Deque.latest (obd_buffer self)); [apply cap_le_1 | done].
Qed.

(** X7. In every assessment the safety score is not negative, and it is
    at most 100 when the collision risk and the fatigue risk are not
    negative. *)
Theorem safety_score_bounds (self : SensorFusion) (now current_time : Q) :
  let a := eval (generate_comprehensive_assessment now current_time) self in
  let r := Assessment.risks a in
  0 <= Assessment.overall_safety_score a
  /\ (0 <= Risks.collision r -> 0 <= Risks.driver_fatigue r ->
      Assessment.overall_safety_score a <= 100).
Proof.
  cbv zeta. rewrite assessment_score. cbv zeta. rewrite assessment_risks. simpl.
  pose proof (lane_departure_risk_le_1 self current_time) as [Hl0 _].
  pose proof (aggressive_driving_risk_le_1 self) as [Hg0 _].
  set (c := eval calculate_collision_risk self) in *.
  set (l := eval (calculate_lane_departure_risk current_time) self) in *.
  set (f := eval calculate_driver_fatigue_risk self) in *.
  set (g := eval calculate_aggressive_driving_risk self) in *.
  split; [apply Q.le_max_l |].
  intros Hc0 Hf0. apply Q.max_lub; lra.
Qed.

Lemma safety_score_bounds_witness :
  Assessment.overall_safety_score
    (eval (generate_comprehensive_assessment 1 1)
          (run [AddFatigue 0 (FatigueData.mk (Some 50) None None None None)]
               (init 10))) <= 100.
Proof.
  apply (safety_score_bounds
           (run [AddFatigue 0 (FatigueData.mk (Some 50) None None None None)]
                (init 10)) 1 1);
    vm_compute; discriminate.
Defined.

(** ** What no call changes *)

Lemma step_configuration o self :
  let self' := exec (step o) self in
  alert_thresholds self' = alert_thresholds self
  /\ buffer_size self' = buffer_size self
  /\ Deque.maxlen (vision_buffer self') = Deque.maxlen (vision_buffer self)
  /\ Deque.maxlen (obd_buffer self') = Deque.maxlen (obd_buffer self)
  /\ Deque.maxlen (fatigue_buffer self') = Deque.maxlen (fatigue_buffer self).
Proof.
  pose proof (step_read_only_cases o self) as Hro.
  destruct o; simpl in *; try (by rewrite Hro);
    try (by rewrite ?deque_append_maxlen).
  destruct (adjust_fusion_weights_frame sensor_confidence self)
    as (Hb & Hv & Ho & Hf & Ht).
  by rewrite Hb, Hv, Ho, Hf, Ht.
Qed.

Lemma reachable_configuration n self :
  reachable n self ->
  alert_thresholds self = init_thresholds
  /\ buffer_size self = n
  /\ Deque.maxlen (vision_buffer self) = n
  /\ Deque.maxlen (obd_buffer self) = n
  /\ Deque.maxlen (fatigue_buffer self) = n.
Proof.
  intros [ops ->].
  induction ops as [| o ops IH] using rev_ind; [done |].
  rewrite run_snoc.
  destruct (step_configuration o (run ops (init n))) as (-> & -> & -> & -> & ->).
  exact IH.
Qed.

(** X8. No sequence of calls changes how the engine was configured: in
    every reachable state the alert thresholds are the four defaults and
    each history keeps the capacity given at construction. *)
Theorem configuration_is_fixed (n : nat) (ops : list op) :
  let self := run ops (init n) in
  (thr_collision_risk (alert_thresholds self) = 0.7
   /\ thr_lane_departure (alert_thresholds self) = 0.6
   /\ thr_driver_fatigue (alert_thresholds self) = 0.8
   /\ thr_aggressive_driving (alert_thresholds self) = 0.7)
  /\ buffer_size self = n
  /\ Deque.maxlen (vision_buffer self) = n
  /\ Deque.maxlen (obd_buffer self) = n
  /\ Deque.maxlen (fatigue_buffer self) = n.
Proof.
  cbv zeta.
  destruct (reachable_configuration n (run ops (init n))) as (-> & ? & ? & ? & ?);
    [by exists ops |].
  done.
Qed.

(** ** Alerts and recommendations *)

Lemma elem_of_append_if {A} (cond : bool) (l : list A) (x y : A) :
  y ∈ append_if cond l x <-> y ∈ l \/ (cond = true /\ y = x).
Proof.
  unfold append_if. destruct cond.
  - rewrite elem_of_app, list_elem_of_singleton. intuition.
  - intuition congruence.
Qed.

(** X9. Under the thresholds every engine has, an alert always comes with
    its recommendation: the collision alert with "Increase following
    distance", the fatigue alert with "Consider taking a break", the
    aggressive driving alert with the advice to reduce acceleration. *)
Theorem alert_implies_recommendation (n : nat) (ops : list op)
    (now current_time : Q) :
  let a :=
    eval (generate_comprehensive_assessment now current_time)
         (run ops (init n)) in
  (collision_alert ∈ Assessment.alerts a ->
   "Increase following distance" ∈ Assessment.recommendations a)
  /\ (fatigue_alert ∈ Assessment.alerts a ->
      "Consider taking a break" ∈ Assessment.recommendations a)
  /\ (aggressive_alert ∈ Assessment.alerts a ->
      "Reduce acceleration and maintain steady speed"
        ∈ Assessment.recommendations a).
Proof.
  cbv zeta. rewrite assessment_alerts, assessment_recommendations. cbv zeta.
  destruct (reachable_configuration n (run ops (init n))) as (-> & _);
    [by exists ops |].
  set (r := Assessment.risks _). simpl.
  rewrite !elem_of_append_if, !elem_of_nil.
  assert (Hc : Qgtb (Risks.collision r) 0.7 = true ->
               Qgtb (Risks.collision r) 0.3 = true).
  { rewrite !Qgtb_true. lra. }
  assert (Hf : Qgtb (Risks.driver_fatigue r) 0.8 = true ->
               Qgtb (Risks.driver_fatigue r) 0.5 = true).
  { rewrite !Qgtb_true. lra. }
  assert (Hg : Qgtb (Risks.aggressive_driving r) 0.7 = true ->
               Qgtb (Risks.aggressive_driving r) 0.4 = true).
  { rewrite !Qgtb_true. lra. }
  repeat split; intros Hin;
    repeat match type of Hin with
           | _ \/ _ => destruct Hin as [Hin | Hin]
           | _ /\ _ => let E := fresh "E" in destruct Hin as [Hin E];
                       try discriminate E
           | False => destruct Hin
           end; tauto.
Qed.

Lemma alert_implies_recommendation_witness :
  "Reduce acceleration and maintain steady speed"
    ∈ Assessment.recommendations
        (eval (generate_comprehensive_assessment 1 1)
              (run [AddObd 0 (ObdData.mk None None None
                                (Some (BehaviorAnalysis.mk None None (Some true) None)))]
                   (init 10))).
Proof.
  apply (alert_implies_recommendation 10
           [AddObd 0 (ObdData.mk None None None
                        (Some (BehaviorAnalysis.mk None None (Some true) None)))]
           1 1).
  vm_compute. apply list_elem_of_here.
Defined.

(** X10. The alerts of an assessment are a sub-list of the four alerts in
    the order collision, lane departure, fatigue, aggressive driving, and
    its recommendations a sub-list of the three recommendations in the
    order following distance, break, acceleration: none is repeated and
    the order never varies. *)
Theorem alerts_in_fixed_order (self : SensorFusion) (now current_time : Q) :
  let a := eval (generate_comprehensive_assessment now current_time) self in
  sublist (Assessment.alerts a)
          [collision_alert; lane_alert; fatigue_alert; aggressive_alert]
  /\ sublist (Assessment.recommendations a)
             ["Increase following distance"; "Consider taking a break";
              "Reduce acceleration and maintain steady speed"].
Proof.
  cbv zeta. rewrite assessment_alerts, assessment_recommendations. cbv zeta.
  unfold append_if. split;
    repeat match goal with
           | |- context [Qgtb ?x ?y] => destruct (Qgtb x y)
           end;
    simpl;
    repeat first [ apply sublist_nil
                 | apply sublist_skip
                 | apply sublist_cons ].
Qed.

(** ** More on weight adjustment *)

Lemma sensor_fusion_eq (s1 s2 : SensorFusion) :
  buffer_size s1 = buffer_size s2 ->
  vision_buffer s1 = vision_buffer s2 ->
  obd_buffer s1 = obd_buffer s2 ->
  fatigue_buffer s1 = fatigue_buffer s2 ->
  weights s1 = weights s2 ->
  alert_thresholds s1 = alert_thresholds s2 ->
  s1 = s2.
Proof. destruct s1, s2. simpl. by intros -> -> -> -> -> ->. Qed.

(** X11. An adjustment overrides an earlier one: when the later mapping
    has a positive total and names every weighted sensor the earlier one
    named, the two calls in sequence leave the engine as the later call
    alone would.  In particular, repeating an adjustment changes
    nothing more. *)
Theorem adjust_fusion_weights_overrides (self : SensorFusion)
    (earlier later : gmap string Q) :
  0 < sum_values later ->
  (forall sensor, sensor ∈ dom earlier -> sensor ∈ dom (weights self) ->
                  sensor ∈ dom later) ->
  exec (adjust_fusion_weights later) (exec (adjust_fusion_weights earlier) self)
  = exec (adjust_fusion_weights later) self.
Proof.
  intros Hpos Hdom. apply Qgtb_true in Hpos.
  destruct (adjust_fusion_weights_frame later
              (exec (adjust_fusion_weights earlier) self))
    as (Hb1 & Hv1 & Ho1 & Hf1 & Ht1).
  destruct (adjust_fusion_weights_frame earlier self)
    as (Hb2 & Hv2 & Ho2 & Hf2 & Ht2).
  destruct (adjust_fusion_weights_frame later self)
    as (Hb3 & Hv3 & Ho3 & Hf3 & Ht3).
  apply sensor_fusion_eq; try congruence.
  rewrite !adjust_fusion_weights_exec, Hpos.
  destruct (Qgtb (sum_values earlier) 0); [| done].
  apply map_eq. intros k. rewrite !adjust_loop_lookup.
  destruct (weights self !! k) as [old |] eqn:Hold; [| done].
  destruct (later !! k) as [c |] eqn:Hlater; [done |].
  destruct (earlier !! k) as [c |] eqn:Hearlier; [| done].
  exfalso. apply not_elem_of_dom in Hlater. apply Hlater, Hdom.
  - apply elem_of_dom. by eexists.
  - apply elem_of_dom. by eexists.
Qed.

Lemma adjust_fusion_weights_overrides_witness :
  exec (adjust_fusion_weights (<["vision" := 3]> (<["obd" := 1]> ∅)))
       (exec (adjust_fusion_weights (<["vision" := 3]> (<["obd" := 1]> ∅)))
             (init 10))
  = exec (adjust_fusion_weights (<["vision" := 3]> (<["obd" := 1]> ∅))) (init 10).
Proof.
  apply (adjust_fusion_weights_overrides (init 10)
           (<["vision" := 3]> (<["obd" := 1]> ∅))
           (<["vision" := 3]> (<["obd" := 1]> ∅))).
  - reflexivity.
  - intros sensor Hin _. exact Hin.
Defined.

(** ** The closest distance is a minimum *)

Lemma num_ltb_false (a b : num) : num_ltb b a = false <-> num_le a b.
Proof.
  destruct a as [x |], b as [y |]; simpl; try done.
  apply Qgtb_false.
Qed.

Lemma num_le_refl (a : num) : num_le a a.
Proof. destruct a; simpl; [apply Qle_refl | done]. Qed.

Lemma num_le_trans (a b c : num) : num_le a b -> num_le b c -> num_le a c.
Proof.
  destruct a, b, c; simpl; try done. apply Qle_trans.
Qed.

Lemma num_le_total (a b : num) : num_le a b \/ num_le b a.
Proof.
  destruct a as [x |], b as [y |]; simpl; auto.
  destruct (Qlt_le_dec x y) as [H | H]; [left; by apply Qlt_le_weak | by right].
Qed.

(** [min] returns an item of the list that no item is below. *)
Lemma min_from_spec (best : num) (rest : list num) :
  min_from best rest ∈ best :: rest
  /\ Forall (num_le (min_from best rest)) (best :: rest).
Proof.
  revert best. induction rest as [| x rest IH]; intros best; simpl.
  - split; [apply list_elem_of_here |]. constructor; [apply num_le_refl | done].
  - set (best' := if num_ltb x best then x else best).
    destruct (IH best') as [Hin Hle].
    apply Forall_cons in Hle as [Hbest' Hrest].
    assert (Hlow : num_le best' best /\ num_le best' x).
    { subst best'. destruct (num_ltb x best) eqn:Hlt.
      - split; [| apply num_le_refl].
        destruct (num_le_total x best) as [H | H]; [done |].
        apply num_ltb_false in H. congruence.
      - split; [apply num_le_refl | by apply num_ltb_false]. }
    destruct Hlow as [Hb Hx]. split.
    + apply elem_of_cons in Hin as [Hin | Hin].
      * rewrite Hin. subst best'.
        destruct (num_ltb x best); [apply list_elem_of_further |];
          apply list_elem_of_here.
      * by do 2 apply list_elem_of_further.
    + constructor; [by eapply num_le_trans |].
      constructor; [by eapply num_le_trans | done].
Qed.

(** The closest distance is attained by a usable detection, and bounds
    every usable distance from below. *)
Lemma closest_distance_spec (vision_data : VisionData.t) :
  let objects := default [] (VisionData.detected_objects vision_data) in
  let closest := _get_closest_object_distance vision_data in
  (forall obj d,
      obj ∈ objects -> truthy (distance obj) = true -> distance obj = Some d ->
      num_le closest d)
  /\ ((exists obj,
          obj ∈ objects /\ truthy (distance obj) = true
          /\ distance obj = Some closest)
      \/ (closest = PInf /\ Forall missing_or_zero objects)).
Proof.
  cbv zeta. rewrite closest_distance_by_filter.
  set (objects := default [] (VisionData.detected_objects vision_data)).
  set (usable := List.filter (fun obj => truthy (distance obj)) objects).
  assert (Husable : forall obj,
             obj ∈ usable <-> obj ∈ objects /\ truthy (distance obj) = true).
  { intros obj. subst usable. rewrite !list_elem_of_In. apply filter_In. }
  destruct usable as [| first others] eqn:Hlist; simpl.
  - split.
    + intros obj d Hin Htruthy _.
      assert (Habs : obj ∈ @nil DetectedObject) by (by apply Husable).
      by apply elem_of_nil in Habs.
    + right. split; [done |]. apply Forall_forall. intros obj Hin.
      apply truthy_false_iff. destruct (truthy (distance obj)) eqn:Ht; [| done].
      assert (Habs : obj ∈ @nil DetectedObject) by (by apply Husable).
      by apply elem_of_nil in Habs.
  - destruct (min_from_spec (default PInf (distance first))
                (map (fun obj => default PInf (distance obj)) others))
      as [Hin Hle].
    change (default PInf (distance first)
              :: map (fun obj => default PInf (distance obj)) others)
      with (map (fun obj => default PInf (distance obj)) (first :: others))
      in Hin, Hle.
    split.
    + intros obj d Hobj Htruthy Hd.
      rewrite Forall_forall in Hle. apply Hle.
      apply list_elem_of_fmap. exists obj. rewrite Hd. split; [done |].
      by apply Husable.
    + left. apply list_elem_of_fmap in Hin as (obj & Heq & Hobj).
      apply Husable in Hobj as [Hobj Htruthy].
      exists obj. split; [done |]. split; [done |].
      rewrite Heq. destruct (distance obj); [done | discriminate Htruthy].
Qed.

(** X13. The closest object distance of a vision sample is the least of
    the distances of the detections that carry a usable one: it is the
    distance of such a detection, and no such detection is nearer.  It
    is infinite only when no detection carries a usable distance, or
    when the nearest usable distance is itself infinite. *)
Theorem closest_distance_is_minimum (vision_data : VisionData.t) :
  let objects := default [] (VisionData.detected_objects vision_data) in
  let closest := _get_closest_object_distance vision_data in
  (forall obj d,
      obj ∈ objects -> truthy (distance obj) = true -> distance obj = Some d ->
      num_le closest d)
  /\ ((exists obj,
          obj ∈ objects /\ truthy (distance obj) = true
          /\ distance obj = Some closest)
      \/ (closest = PInf /\ Forall missing_or_zero objects)).
Proof. exact (closest_distance_spec vision_data). Qed.

Lemma closest_distance_is_minimum_witness :
  num_le (_get_closest_object_distance
            (VisionData.mk None None
               (Some [ {| distance := Some (Fin 12) |};
                       {| distance := Some (Fin 0) |};
                       {| distance := Some (Fin 7) |} ]) None))
         (Fin 7).
Proof.
  pose proof (closest_distance_is_minimum
                (VisionData.mk None None
                   (Some [ {| distance := Some (Fin 12) |};
                           {| distance := Some (Fin 0) |};
                           {| distance := Some (Fin 7) |} ]) None)) as [Hmin _].
  apply (Hmin {| distance := Some (Fin 7) |} (Fin 7)).
  - simpl. do 2 apply list_elem_of_further. apply list_elem_of_here.
  - reflexivity.
  - reflexivity.
Defined.

(** ** Evicted samples are forgotten *)

(** X14. However a history of calls began, when none of the [n] most
    recent OBD samples carries a behaviour flag the aggressive driving
    risk of an engine of capacity [n] is 0: flagged samples that were
    evicted no longer count. *)
Theorem aggressive_driving_risk_forgets (n : nat) (ops : list op) :
  Forall (fun entry => is_aggressive entry = false)
         (most_recent n (obd_pushes ops)) ->
  eval calculate_aggressive_driving_risk (run ops (init n)) == 0.
Proof.
  intros Hcalm. rewrite aggressive_driving_risk_eval. unfold Deque.len.
  rewrite run_obd_buffer.
  destruct (deque_appends n (obd_pushes ops)) as [_ Hitems].
  simpl in *. rewrite Hitems.
  apply filter_none_length in Hcalm. rewrite Hcalm.
  destruct (most_recent n (obd_pushes ops)); [reflexivity |].
  destruct (_ <? _)%nat; [apply ratio_zero | reflexivity].
Qed.

Lemma aggressive_driving_risk_forgets_witness :
  eval calculate_aggressive_driving_risk
       (run [AddObd 0 (ObdData.mk None None None
                         (Some (BehaviorAnalysis.mk None None (Some true) None)));
             AddObd 1 (ObdData.mk None None None None);
             AddObd 2 (ObdData.mk None None None None)]
            (init 2)) == 0.
Proof.
  apply (aggressive_driving_risk_forgets 2
           [AddObd 0 (ObdData.mk None None None
                        (Some (BehaviorAnalysis.mk None None (Some true) None)));
            AddObd 1 (ObdData.mk None None None None);
            AddObd 2 (ObdData.mk None None None None)]).
  vm_compute. by repeat constructor.
Defined.

(** * The OBD reader *)

Section ReadCommands.
Variables (query : string -> response) (clock : string -> Q).

(** A pass leaves alone every item whose command did not answer with a
    value. *)
Lemma read_commands_keeps cmds buffer key :
  (forall v unit, query key <> Value v unit) ->
  OBDReader.read_commands query clock cmds buffer !! key = buffer !! key.
Proof.
  intros Hkey. revert buffer.
  induction cmds as [| cmd_name rest IH]; intros buffer; simpl; [done |].
  destruct (query cmd_name) as [| | v unit |] eqn:Hq; try apply IH; [| done].
  rewrite IH. apply lookup_insert_ne. intros ->. by apply (Hkey v unit).
Qed.

(** A pass never removes an item. *)
Lemma read_commands_is_Some cmds buffer key :
  is_Some (buffer !! key) ->
  is_Some (OBDReader.read_commands query clock cmds buffer !! key).
Proof.
  revert buffer.
  induction cmds as [| cmd_name rest IH]; intros buffer Hsome; simpl; [done |].
  destruct (query cmd_name) as [| | v unit |].
  - by apply IH.
  - by apply IH.
  - apply IH. rewrite lookup_insert. by case_decide.
  - done.
Qed.

(** A pass adds items under names of its command list only. *)
Lemma read_commands_dom cmds buffer key :
  is_Some (OBDReader.read_commands query clock cmds buffer !! key) ->
  is_Some (buffer !! key) \/ key ∈ cmds.
Proof.
  revert buffer.
  induction cmds as [| cmd_name rest IH]; intros buffer; simpl; [by left |].
  destruct (query cmd_name) as [| | v unit |]; intros Hsome;
    try (destruct (IH _ Hsome) as [H | H];
         [by left | right; by apply list_elem_of_further]);
    [| by left].
  destruct (IH _ Hsome) as [H | H]; [| right; by apply list_elem_of_further].
  rewrite lookup_insert in H. case_decide as Heq; [| by left].
  right. rewrite Heq. apply list_elem_of_here.
Qed.

(** In a pass without exception, a listed command that answers with a
    value gets a fresh item. *)
Lemma read_commands_refreshes cmds buffer key v unit :
  Forall (fun cmd_name => query cmd_name <> QueryError) cmds ->
  key ∈ cmds ->
  query key = Value v unit ->
  OBDReader.read_commands query clock cmds buffer !! key
  = Some (Reading.mk v unit (clock key)).
Proof.
  intros Hok. revert buffer.
  induction Hok as [| cmd_name rest Hcmd _ IH]; intros buffer Hin Hq.
  - by apply elem_of_nil in Hin.
  - simpl. destruct (decide (key = cmd_name)) as [-> | Hne].
    + rewrite Hq.
      destruct (decide (cmd_name ∈ rest)) as [Hrest | Hrest]; [by apply IH |].
      assert (Hstay : forall b,
                 OBDReader.read_commands query clock rest b !! cmd_name
                 = b !! cmd_name).
      { clear -Hrest. induction rest as [| c rest IH]; intros b; simpl; [done |].
        apply not_elem_of_cons in Hrest as [Hne Hrest].
        destruct (query c); rewrite ?IH by done; try done.
        by apply lookup_insert_ne. }
      by rewrite Hstay, lookup_insert_eq.
    + apply elem_of_cons in Hin as [Hin | Hin]; [done |].
      destruct (query cmd_name); try by apply IH. done.
Qed.
End ReadCommands.

(** X15. One turn of the reading loop, item by item.  An item whose
    command gives no value this turn (unknown, unsupported, empty or
    raising) stays as it was, so a reading is never removed; and in a
    turn without exception the item of every listed command that gives a
    value is replaced by that value, its unit and the time of the
    read. *)
Theorem read_loop_turn_items (query : string -> response) (clock : string -> Q)
    (self : OBDReader.t) (cmd_name : string) :
  let after := OBDReader._read_loop_turn query clock self in
  ((forall v unit, query cmd_name <> Value v unit) ->
   OBDReader.data_buffer after !! cmd_name
   = OBDReader.data_buffer self !! cmd_name)
  /\ (is_Some (OBDReader.data_buffer self !! cmd_name) ->
      is_Some (OBDReader.data_buffer after !! cmd_name))
  /\ (forall v unit,
        Forall (fun c => query c <> QueryError) (OBDReader.commands self) ->
        cmd_name ∈ OBDReader.commands self ->
        query cmd_name = Value v unit ->
        OBDReader.data_buffer after !! cmd_name
        = Some (Reading.mk v unit (clock cmd_name))).
Proof.
  cbv zeta. simpl. split; [apply read_commands_keeps |].
  split; [apply read_commands_is_Some |].
  intros v unit. apply read_commands_refreshes.
Qed.

Lemma read_loop_turn_items_witness :
  let query := fun cmd_name : string =>
                 if String.eqb cmd_name "SPEED" then Value 72 "kph" else NoValue in
  let after := OBDReader._read_loop_turn query (fun _ => 5) OBDReader.init in
  OBDReader.data_buffer after !! "SPEED" = Some (Reading.mk 72 "kph" 5)
  /\ OBDReader.data_buffer after !! "RPM" = None.
Proof.
  split.
  - apply (read_loop_turn_items
             (fun cmd_name : string =>
                if String.eqb cmd_name "SPEED" then Value 72 "kph" else NoValue)
             (fun _ => 5) OBDReader.init "SPEED").
    + simpl. repeat constructor; discriminate.
    + simpl. apply list_elem_of_further, list_elem_of_here.
    + reflexivity.
  - replace (@None Reading.t) with (OBDReader.data_buffer OBDReader.init !! "RPM")
      by reflexivity.
    apply (read_loop_turn_items
             (fun cmd_name : string =>
                if String.eqb cmd_name "SPEED" then Value 72 "kph" else NoValue)
             (fun _ => 5) OBDReader.init "RPM").
    intros v unit. discriminate.
Defined.

Lemma run_turns_snoc turns turn self :
  OBDReader.run_turns (turns ++ [turn]) self
  = OBDReader._read_loop_turn (fst turn) (snd turn) (OBDReader.run_turns turns self).
Proof. unfold OBDReader.run_turns. by rewrite fold_left_app. Qed.

(** The buffer of a reader is keyed by names of its command list. *)
Lemma run_turns_keys turns key :
  let reader := OBDReader.run_turns turns OBDReader.init in
  OBDReader.commands reader = OBDReader.commands OBDReader.init
  /\ (is_Some (OBDReader.data_buffer reader !! key) ->
      key ∈ OBDReader.commands OBDReader.init).
Proof.
  induction turns as [| turn turns IH] using rev_ind.
  - split; [done |]. simpl. rewrite lookup_empty. by intros [? ?].
  - rewrite run_turns_snoc. cbv zeta in *. destruct IH as [Hcmds Hkeys].
    split; [done |]. simpl. intros Hsome.
    apply read_commands_dom in Hsome as [Hold | Hnew]; [by apply Hkeys |].
    by rewrite Hcmds in Hnew.
Qed.

Lemma analyze_driving_behavior_cases (self : OBDReader.t) :
  match OBDReader.get_speed self, OBDReader.get_rpm self,
        OBDReader.get_throttle_position self with
  | Some speed, Some rpm, Some throttle =>
    OBDReader.analyze_driving_behavior self
    = BehaviorAnalysis.mk (Some (Qgtb throttle 80 && Qgtb speed 20))
                          (Some false)
                          (Some (Qgtb speed 120))
                          (Some (Qgtb rpm 4000))
  | _, _, _ =>
    OBDReader.analyze_driving_behavior self
    = BehaviorAnalysis.mk (Some false) (Some false) (Some false) (Some false)
  end.
Proof.
  unfold OBDReader.analyze_driving_behavior.
  destruct (OBDReader.get_speed self) as [speed |]; [| done].
  destruct (OBDReader.get_rpm self) as [rpm |]; [| done].
  destruct (OBDReader.get_throttle_position self) as [throttle |]; [| done].
  by destruct (Qgtb throttle 80 && Qgtb speed 20), (Qgtb rpm 4000),
              (Qgtb speed 120).
Qed.

(** X16. The behaviour analysis always carries its four flags and never
    reports aggressive braking.  While one of the speed, RPM and throttle
    readings is missing it reports nothing at all.  With the three
    readings, it reports aggressive acceleration exactly when the
    throttle is above 80 and the speed above 20, engine stress exactly
    when the RPM is above 4000, and excessive speed exactly when the
    speed is above 120. *)
Theorem analyze_driving_behavior_flags (self : OBDReader.t) :
  let analysis := OBDReader.analyze_driving_behavior self in
  BehaviorAnalysis.aggressive_braking analysis = Some false
  /\ (exists a s e,
        BehaviorAnalysis.aggressive_acceleration analysis = Some a
        /\ BehaviorAnalysis.excessive_speed analysis = Some s
        /\ BehaviorAnalysis.engine_stress analysis = Some e)
  /\ (OBDReader.get_speed self = None \/ OBDReader.get_rpm self = None
      \/ OBDReader.get_throttle_position self = None ->
      analysis
      = BehaviorAnalysis.mk (Some false) (Some false) (Some false) (Some false))
  /\ (forall speed rpm throttle,
        OBDReader.get_speed self = Some speed ->
        OBDReader.get_rpm self = Some rpm ->
        OBDReader.get_throttle_position self = Some throttle ->
        (BehaviorAnalysis.aggressive_acceleration analysis = Some true
         <-> 80 < throttle /\ 20 < speed)
        /\ (BehaviorAnalysis.engine_stress analysis = Some true <-> 4000 < rpm)
        /\ (BehaviorAnalysis.excessive_speed analysis = Some true
            <-> 120 < speed)).
Proof.
  cbv zeta. pose proof (analyze_driving_behavior_cases self) as Hcases.
  destruct (OBDReader.get_speed self) as [speed |] eqn:Hs;
    [destruct (OBDReader.get_rpm self) as [rpm |] eqn:Hr;
     [destruct (OBDReader.get_throttle_position self) as [throttle |] eqn:Ht |] |];
    rewrite Hcases; simpl;
    (split; [done |]); (split; [by repeat eexists |]);
    (split; [first [done | intros [H | [H | H]]; discriminate H] |]);
    intros speed' rpm' throttle' Hs' Hr' Ht'; try discriminate.
  injection Hs' as <-. injection Hr' as <-. injection Ht' as <-.
  rewrite <- !Qgtb_true.
  split; [| split]; (split; [intros [= H] | intros H]).
  - by apply andb_true_iff.
  - f_equal. by apply andb_true_iff.
  - done.
  - by f_equal.
  - done.
  - by f_equal.
Qed.

Lemma analyze_driving_behavior_flags_witness :
  OBDReader.analyze_driving_behavior
    (OBDReader.mk [] (<["SPEED" := Reading.mk 130 "kph" 0]>
                        (<["RPM" := Reading.mk 3000 "rpm" 0]> ∅)))
  = BehaviorAnalysis.mk (Some false) (Some false) (Some false) (Some false).
Proof.
  apply (analyze_driving_behavior_flags
           (OBDReader.mk [] (<["SPEED" := Reading.mk 130 "kph" 0]>
                               (<["RPM" := Reading.mk 3000 "rpm" 0]> ∅)))).
  right. right. reflexivity.
Defined.

(** X17. In [process_frame] the speed, the RPM and the throttle position
    never reach the fusion.  The reader keys its buffer by command names
    ('SPEED', 'RPM', 'THROTTLE_POS'), [add_obd_data] looks up 'speed',
    'rpm' and 'throttle_position': whatever the reading loop has stored,
    the OBD entry built from the dictionary of [process_frame] has the
    three values 0, carries the flags of the analysis it was given, and
    contributes at most 0.3 to the collision risk. *)
Theorem process_frame_obd_entry_defaults
    (turns : list ((string -> response) * (string -> Q)))
    (behavior_analysis : BehaviorAnalysis.t) (now : Q) :
  let reader := OBDReader.run_turns turns OBDReader.init in
  let obd_data :=
    process_frame_obd_data (OBDReader.get_latest_data reader) behavior_analysis in
  as_obd_data obd_data
  = Some (ObdData.mk None None None (Some behavior_analysis))
  /\ (forall data, as_obd_data obd_data = Some data ->
        ObdEntry.speed (make_obd_entry now data) = 0
        /\ ObdEntry.rpm (make_obd_entry now data) = 0
        /\ ObdEntry.throttle_position (make_obd_entry now data) = 0
        /\ obd_risk (make_obd_entry now data) <= 0.3).
Proof.
  cbv zeta.
  assert (Habsent : forall key,
             key ∉ OBDReader.commands OBDReader.init ->
             key <> "behavior_analysis" ->
             process_frame_obd_data
               (OBDReader.get_latest_data (OBDReader.run_turns turns OBDReader.init))
               behavior_analysis !! key = None).
  { intros key Hkey Hne. unfold process_frame_obd_data, OBDReader.get_latest_data.
    rewrite lookup_insert_ne by done. rewrite lookup_fmap.
    destruct (OBDReader.data_buffer _ !! key) eqn:Hlook; [| done].
    exfalso. apply Hkey. apply (run_turns_keys turns key). by eexists. }
  assert (Hview : as_obd_data
                    (process_frame_obd_data
                       (OBDReader.get_latest_data
                          (OBDReader.run_turns turns OBDReader.init))
                       behavior_analysis)
                  = Some (ObdData.mk None None None (Some behavior_analysis))).
  { unfold as_obd_data.
    rewrite (Habsent "speed"), (Habsent "rpm"), (Habsent "throttle_position");
      try discriminate;
      try (simpl; rewrite !not_elem_of_cons; repeat split;
           try discriminate; apply not_elem_of_nil).
    unfold process_frame_obd_data. by rewrite lookup_insert_eq. }
  split; [done |]. rewrite Hview. intros data [= <-].
  repeat split. unfold obd_risk. simpl.
  destruct (_ || _); vm_compute; discriminate.
Qed.

Lemma process_frame_obd_entry_defaults_witness :
  let query := fun cmd_name : string =>
                 if String.eqb cmd_name "SPEED" then Value 150 "kph" else NoValue in
  let reader := OBDReader.run_turns [(query, fun _ => 5)] OBDReader.init in
  OBDReader.get_speed reader = Some 150
  /\ ObdEntry.speed
       (make_obd_entry 6
          (ObdData.mk None None None
             (Some (OBDReader.analyze_driving_behavior reader)))) = 0.
Proof.
  split; [reflexivity |].
  pose proof (process_frame_obd_entry_defaults
                [(fun cmd_name : string =>
                    if String.eqb cmd_name "SPEED" then Value 150 "kph" else NoValue,
                  fun _ => 5)]
                (OBDReader.analyze_driving_behavior
                   (OBDReader.run_turns
                      [(fun cmd_name : string =>
                          if String.eqb cmd_name "SPEED"
                          then Value 150 "kph" else NoValue,
                        fun _ => 5)] OBDReader.init))
                6) as [Hview Hentry].
  apply (Hentry _ Hview).
Defined.

(** * Detections and lanes in [process_frame] *)

Lemma num_le_ltb (a b c : num) :
  num_le a b -> num_ltb b c = true -> num_ltb a c = true.
Proof.
  destruct a as [x |], b as [y |], c as [z |]; simpl; try done.
  rewrite !Qgtb_true. intros Hxy Hyz. by apply Qle_lt_trans with y.
Qed.

(** A detection near enough to raise the collision flag. *)
Lemma draw_detections_exists (detections : list DetectedObject) :
  draw_detections detections = true
  <-> exists obj d,
        obj ∈ detections /\ distance obj = Some d
        /\ truthy (Some d) = true /\ num_ltb d (Fin 10) = true.
Proof.
  unfold draw_detections.
  set (step := fun (collision_warning : bool) (detection : DetectedObject) => _).
  assert (Hgen : forall acc,
             fold_left step detections acc = true
             <-> acc = true
                 \/ exists obj d,
                      obj ∈ detections /\ distance obj = Some d
                      /\ truthy (Some d) = true /\ num_ltb d (Fin 10) = true).
  { induction detections as [| obj rest IH]; intros acc; simpl.
    - split; [by left |]. intros [H | (obj & d & Hin & _)]; [done |].
      by apply elem_of_nil in Hin.
    - rewrite IH. split.
      + intros [Hstep | (o & d & Hin & H)].
        * subst step. cbv beta in Hstep.
          destruct (distance obj) as [d |] eqn:Hd; [| by left].
          destruct (truthy (Some d)) eqn:Ht; [| by left].
          destruct (num_ltb d (Fin 10)) eqn:Hnear; [| by left].
          right. exists obj, d. split; [apply list_elem_of_here | done].
        * right. exists o, d. split; [by apply list_elem_of_further | done].
      + intros [-> | (o & d & Hin & Hd & Ht & Hnear)].
        * left. subst step. cbv beta.
          destruct (distance obj) as [d |]; [| done].
          destruct (truthy (Some d)); [| done]. by destruct (num_ltb d (Fin 10)).
        * apply elem_of_cons in Hin as [-> | Hin].
          -- left. subst step. cbv beta. rewrite Hd. cbv [truthy] in *.
             by rewrite Ht, Hnear.
          -- right. exists o, d. done. }
  rewrite Hgen. split; [intros [H | H]; [done | exact H] | by right].
Qed.

(** X18. In the vision entry built from the sample of [process_frame],
    the collision flag is set exactly when the closest object distance is
    below 10: the flag drawn on the frame and the distance kept by the
    fusion agree. *)
Theorem process_frame_collision_flag (lane_data : LaneData.t)
    (detected_objects : list DetectedObject) (now : Q) :
  let entry :=
    make_vision_entry now
      (process_frame_vision_data lane_data detected_objects) in
  VisionEntry.collision_warning entry
  = num_ltb (VisionEntry.closest_object_distance entry) (Fin 10).
Proof.
  cbv zeta. simpl.
  set (vision_data := process_frame_vision_data lane_data detected_objects).
  change (_get_closest_object_distance _)
    with (_get_closest_object_distance vision_data).
  destruct (closest_distance_spec vision_data) as [Hmin Hattained].
  simpl in Hmin, Hattained.
  destruct (draw_detections detected_objects) eqn:Hflag.
  - apply draw_detections_exists in Hflag as (obj & d & Hin & Hd & Ht & Hnear).
    symmetry. apply num_le_ltb with d; [| done].
    apply (Hmin obj d); [done | by rewrite Hd | done].
  - destruct Hattained as [(obj & Hin & Ht & Hd) | [-> _]]; [| done].
    destruct (num_ltb (_get_closest_object_distance vision_data) (Fin 10))
      eqn:Hnear; [| done].
    assert (Habs : draw_detections detected_objects = true).
    { apply draw_detections_exists.
      exists obj, (_get_closest_object_distance vision_data).
      by rewrite <- Hd. }
    congruence.
Qed.

(** The loop counts flagged entries only. *)
Lemma count_recent_warnings_unflagged current_time entries acc :
  Forall (fun entry => VisionEntry.lane_departure entry = false) entries ->
  count_recent_warnings current_time entries acc = acc.
Proof.
  intros Hnone. revert acc.
  induction Hnone as [| entry rest Hentry _ IH]; intros acc; simpl; [done |].
  destruct (Qgtb _ _); [done |]. by rewrite Hentry, IH.
Qed.

Lemma vision_pushes_from_process_frame ops :
  Forall from_process_frame ops ->
  Forall (fun entry => VisionEntry.lane_departure entry = false)
         (vision_pushes ops).
Proof.
  induction 1 as [| o ops Ho _ IH]; [constructor |].
  unfold vision_pushes in *. simpl.
  destruct o; simpl; try exact IH.
  destruct Ho as (detected_objects & ->). by constructor.
Qed.

(** X19. No lane departure ever comes out of [process_frame]: the lane
    detector's output processing returns no departure warning, so when
    every vision sample of a history of calls is one built by
    [process_frame], the lane departure risk is 0 at any time and the
    assessment carries no lane departure alert. *)
Theorem process_frame_no_lane_departure (n : nat) (ops : list op)
    (now current_time : Q) :
  Forall from_process_frame ops ->
  let self := run ops (init n) in
  let a := eval (generate_comprehensive_assessment now current_time) self in
  eval (calculate_lane_departure_risk current_time) self == 0
  /\ alerts_for LaneDeparture (Assessment.alerts a) = [].
Proof.
  intros Hops. cbv zeta.
  assert (Hrisk : eval (calculate_lane_departure_risk current_time)
                       (run ops (init n)) == 0).
  { rewrite lane_departure_risk_eval, run_vision_buffer.
    destruct (deque_appends n (vision_pushes ops)) as [_ Hitems].
    simpl in *. rewrite Hitems.
    destruct (most_recent n (vision_pushes ops)) as [| entry rest] eqn:Hrecent;
      [reflexivity |].
    rewrite count_recent_warnings_unflagged; [by rewrite ratio_zero |].
    apply Forall_forall. intros x Hx.
    apply (proj1 (Forall_forall _ _) (vision_pushes_from_process_frame ops Hops)).
    apply list_elem_of_In, in_rev, list_elem_of_In in Hx.
    rewrite <- Hrecent in Hx. unfold most_recent in Hx.
    by apply (subseteq_drop _ _ x Hx). }
  split; [done |].
  rewrite assessment_alerts. cbv zeta. rewrite assessment_risks.
  cbn [risk_of threshold_of Risks.lane_departure].
  destruct (reachable_configuration n (run ops (init n))) as (-> & _);
    [by exists ops |].
  assert (Hlow : Qgtb (eval (calculate_lane_departure_risk current_time)
                            (run ops (init n)))
                      (thr_lane_departure init_thresholds) = false).
  { apply Qgtb_false. rewrite Hrisk. by vm_compute. }
  rewrite Hlow. unfold append_if.
  repeat match goal with |- context [Qgtb ?x ?y] => destruct (Qgtb x y) end;
    reflexivity.
Qed.

Lemma process_frame_no_lane_departure_witness :
  eval (calculate_lane_departure_risk 1)
       (run [AddVision 0 (process_frame_vision_data process_lane_output
                            [ {| distance := Some (Fin 4) |} ])]
            (init 10)) == 0.
Proof.
  apply (process_frame_no_lane_departure 10
           [AddVision 0 (process_frame_vision_data process_lane_output
                           [ {| distance := Some (Fin 4) |} ])] 1 1).
  constructor; [| constructor].
  exists [ {| distance := Some (Fin 4) |} ]. reflexivity.
Defined.

(** * The fatigue detector *)

Lemma inject_Z_nonneg (z : Z) : (0 <= z)%Z -> 0 <= inject_Z z.
Proof. intros H. unfold Qle. simpl. lia. Qed.

Lemma blink_score_bounds (blink_rate : Z) :
  (0 <= blink_rate)%Z ->
  let blink_score :=
    if (blink_rate <? 10)%Z
    then inject_Z (10 - blink_rate) / 10 * 50
    else if (30 <? blink_rate)%Z
         then inject_Z (blink_rate - 30) / 10 * 30
         else 0 in
  0 <= blink_score /\ (blink_rate = 0%Z -> blink_score == 50).
Proof.
  intros Hrate. cbv zeta.
  destruct (Z.ltb_spec blink_rate 10) as [Hlow | Hhigh].
  - split.
    + assert (H : 0 <= inject_Z (10 - blink_rate))
        by (apply inject_Z_nonneg; lia).
      unfold Qdiv. change (/ 10) with (1 # 10). lra.
    + intros ->. reflexivity.
  - destruct (Z.ltb_spec 30 blink_rate) as [Hmany | Hfew].
    + split; [| lia].
      assert (H : 0 <= inject_Z (blink_rate - 30))
        by (apply inject_Z_nonneg; lia).
      unfold Qdiv. change (/ 10) with (1 # 10). lra.
    + split; [apply Qle_refl | lia].
Qed.

Lemma no_recent_blinks (current_time : Q) (timestamps : list Q) :
  Forall (fun t => 60 < current_time - t) timestamps ->
  List.filter (fun t => Qle_bool (current_time - t) 60) timestamps = [].
Proof.
  induction 1 as [| t ts Ht _ IH]; [done |].
  simpl. destruct (Qle_bool (current_time - t) 60) eqn:Hle; [| exact IH].
  apply Qle_bool_iff in Hle. lra.
Qed.

(** X20. The fatigue score never exceeds 100.  Read at or after the
    detector's start time it is not negative, and it is at least 50
    whenever no blink was recorded during the last 60 seconds, as on a
    detector that has just been started. *)
Theorem fatigue_score_bounds (self : FatigueDetector.t) (current_time : Q) :
  let score := FatigueDetector.calculate_fatigue_score self current_time in
  score <= 100
  /\ (FatigueDetector.start_time self <= current_time ->
      0 <= score
      /\ (Forall (fun t => 60 < current_time - t)
                 (FatigueDetector.blink_timestamps self) ->
          50 <= score)).
Proof.
  cbv zeta. unfold FatigueDetector.calculate_fatigue_score.
  set (recent := List.filter _ (FatigueDetector.blink_timestamps self)).
  set (blink_rate := Z.of_nat (length recent)).
  destruct (blink_score_bounds blink_rate) as [Hblink Hnone]; [lia |].
  cbv zeta in Hblink, Hnone.
  set (blink_score := if (blink_rate <? 10)%Z then _ else _) in *.
  set (yawn_score := inject_Z (Z.of_nat (FatigueDetector.yawn_counter self) * 10)).
  assert (Hyawn : 0 <= yawn_score) by (apply inject_Z_nonneg; lia).
  set (elapsed := current_time - FatigueDetector.start_time self).
  split; [apply Q.le_min_r |].
  intros Hstart.
  assert (Htime : 0 <= Qmin (elapsed / 3600 * 20) 40).
  { apply Q.min_glb; [| done].
    subst elapsed. unfold Qdiv. change (/ 3600) with (1 # 3600). lra. }
  split.
  - apply Q.min_glb; [lra | done].
  - intros Hold.
    assert (Hrate : blink_rate = 0%Z).
    { subst blink_rate recent. by rewrite no_recent_blinks. }
    specialize (Hnone Hrate).
    apply Q.min_glb; [lra | done].
Qed.

Lemma fatigue_score_bounds_witness :
  50 <= FatigueDetector.calculate_fatigue_score (FatigueDetector.init 0) 0.
Proof.
  apply (fatigue_score_bounds (FatigueDetector.init 0) 0).
  - vm_compute. discriminate.
  - constructor.
Defined.

(** What a frame leaves as it was. *)
Lemma analyze_drowsiness_constants (f : FatigueDetector.frame)
    (self : FatigueDetector.t) :
  let self' := snd (FatigueDetector.analyze_drowsiness f self) in
  FatigueDetector.EAR_THRESHOLD self' = FatigueDetector.EAR_THRESHOLD self
  /\ FatigueDetector.EAR_CONSEC_FRAMES self'
     = FatigueDetector.EAR_CONSEC_FRAMES self
  /\ FatigueDetector.MAR_THRESHOLD self' = FatigueDetector.MAR_THRESHOLD self
  /\ FatigueDetector.start_time self' = FatigueDetector.start_time self.
Proof.
  unfold FatigueDetector.analyze_drowsiness, FatigueDetector.detect_blink,
    FatigueDetector.detect_yawn.
  destruct (FatigueDetector.ratios f) as [[ear mar] |]; [| done].
  destruct (Qgtb (FatigueDetector.EAR_THRESHOLD self) ear);
    [| destruct (_ <=? _)%nat]; simpl; by destruct (Qgtb mar _).
Qed.

Lemma run_frames_snoc frames f self :
  FatigueDetector.run_frames (frames ++ [f]) self
  = snd (FatigueDetector.analyze_drowsiness f
           (FatigueDetector.run_frames frames self)).
Proof. unfold FatigueDetector.run_frames. by rewrite fold_left_app. Qed.

Lemma run_frames_constants frames now :
  let self := FatigueDetector.run_frames frames (FatigueDetector.init now) in
  FatigueDetector.EAR_THRESHOLD self = 0.25
  /\ FatigueDetector.EAR_CONSEC_FRAMES self = 20%nat
  /\ FatigueDetector.MAR_THRESHOLD self = 0.6
  /\ FatigueDetector.start_time self = now.
Proof.
  induction frames as [| f frames IH] using rev_ind; [done |].
  rewrite run_frames_snoc. cbv zeta in *.
  destruct (analyze_drowsiness_constants f
              (FatigueDetector.run_frames frames (FatigueDetector.init now)))
    as (-> & -> & -> & ->).
  exact IH.
Qed.

(** X21. Over any sequence of frames the number of blinks counted equals
    the number of blink times recorded, the recorded times are never
    removed or reordered, and a frame on which nothing could be measured
    changes nothing. *)
Theorem blink_count_matches_timestamps (frames : list FatigueDetector.frame)
    (now : Q) (f : FatigueDetector.frame) :
  let self := FatigueDetector.run_frames frames (FatigueDetector.init now) in
  let self' := snd (FatigueDetector.analyze_drowsiness f self) in
  FatigueDetector.total_blinks self
  = length (FatigueDetector.blink_timestamps self)
  /\ FatigueDetector.blink_timestamps self
     `prefix_of` FatigueDetector.blink_timestamps self'
  /\ (FatigueDetector.ratios f = None ->
      FatigueDetector.analyze_drowsiness f self = (None, self)).
Proof.
  cbv zeta. split; [| split].
  - induction frames as [| g frames IH] using rev_ind; [done |].
    rewrite run_frames_snoc.
    set (self := FatigueDetector.run_frames frames (FatigueDetector.init now)) in *.
    unfold FatigueDetector.analyze_drowsiness, FatigueDetector.detect_blink,
      FatigueDetector.detect_yawn.
    destruct (FatigueDetector.ratios g) as [[ear mar] |]; [| done].
    destruct (Qgtb (FatigueDetector.EAR_THRESHOLD self) ear);
      [| destruct (_ <=? _)%nat]; simpl; destruct (Qgtb mar _); simpl;
      rewrite ?length_app; simpl; lia.
  - set (self := FatigueDetector.run_frames frames (FatigueDetector.init now)).
    unfold FatigueDetector.analyze_drowsiness, FatigueDetector.detect_blink,
      FatigueDetector.detect_yawn.
    destruct (FatigueDetector.ratios f) as [[ear mar] |]; [| done].
    destruct (Qgtb (FatigueDetector.EAR_THRESHOLD self) ear);
      [| destruct (_ <=? _)%nat]; simpl; destruct (Qgtb mar _); simpl;
      try done; by apply prefix_app_r.
  - intros Hnone. unfold FatigueDetector.analyze_drowsiness. by rewrite Hnone.
Qed.

Lemma blink_count_matches_timestamps_witness :
  FatigueDetector.analyze_drowsiness
    (FatigueDetector.mkFrame None 1 1) (FatigueDetector.init 0)
  = (None, FatigueDetector.init 0).
Proof.
  apply (blink_count_matches_timestamps [] 0 (FatigueDetector.mkFrame None 1 1)).
  reflexivity.
Defined.

(** The eye counter is the number of measured frames of a closing run of
    frames with closed eyes. *)
Lemma eye_counter_streak frames now :
  let self := FatigueDetector.run_frames frames (FatigueDetector.init now) in
  exists earlier streak,
    frames = earlier ++ streak
    /\ Forall (FatigueDetector.closed_or_unmeasured 0.25) streak
    /\ FatigueDetector.eye_counter self
       = length (List.filter FatigueDetector.measured streak).
Proof.
  induction frames as [| f frames IH] using rev_ind.
  - exists [], []. by repeat split.
  - cbv zeta in *. rewrite run_frames_snoc.
    destruct IH as (earlier & streak & Hsplit & Hclosed & Hcount).
    destruct (run_frames_constants frames now) as (Hear & _).
    set (self := FatigueDetector.run_frames frames (FatigueDetector.init now)) in *.
    unfold FatigueDetector.analyze_drowsiness, FatigueDetector.detect_blink,
      FatigueDetector.detect_yawn.
    destruct (FatigueDetector.ratios f) as [[ear mar] |] eqn:Hratios.
    + rewrite Hear.
      destruct (Qgtb 0.25 ear) eqn:Hlow.
      * exists earlier, (streak ++ [f]). split; [by rewrite Hsplit, app_assoc |].
        split.
        -- apply Forall_app. split; [done |]. constructor; [| done].
           unfold FatigueDetector.closed_or_unmeasured. rewrite Hratios.
           by apply Qgtb_true.
        -- rewrite List.filter_app, length_app. simpl.
           unfold FatigueDetector.measured at 2. rewrite Hratios. simpl.
           destruct (Qgtb mar _); simpl; lia.
      * exists (frames ++ [f]), []. split; [by rewrite app_nil_r |].
        split; [done |].
        destruct (_ <=? _)%nat; simpl; by destruct (Qgtb mar _).
    + exists earlier, (streak ++ [f]). split; [by rewrite Hsplit, app_assoc |].
      split.
      * apply Forall_app. split; [done |]. constructor; [| done].
        unfold FatigueDetector.closed_or_unmeasured. by rewrite Hratios.
      * rewrite List.filter_app, length_app. simpl.
        unfold FatigueDetector.measured at 2. rewrite Hratios. simpl. lia.
Qed.

(** X22. A blink is reported only for a long closure: when the analysis
    of a frame reports a blink, the frames before it end with a run of
    frames with closed eyes (or no measure) of which at least 20 were
    measured. *)
Theorem blink_needs_long_closure (frames : list FatigueDetector.frame)
    (now : Q) (f : FatigueDetector.frame) (analysis : DrowsinessAnalysis.t) :
  fst (FatigueDetector.analyze_drowsiness f
         (FatigueDetector.run_frames frames (FatigueDetector.init now)))
  = Some analysis ->
  DrowsinessAnalysis.blink_detected analysis = true ->
  exists earlier streak,
    frames = earlier ++ streak
    /\ Forall (FatigueDetector.closed_or_unmeasured 0.25) streak
    /\ (20 <= length (List.filter FatigueDetector.measured streak))%nat.
Proof.
  destruct (eye_counter_streak frames now)
    as (earlier & streak & Hsplit & Hclosed & Hcount).
  destruct (run_frames_constants frames now) as (Hear & Hconsec & _).
  cbv zeta in *.
  set (self := FatigueDetector.run_frames frames (FatigueDetector.init now)) in *.
  unfold FatigueDetector.analyze_drowsiness, FatigueDetector.detect_blink,
    FatigueDetector.detect_yawn.
  destruct (FatigueDetector.ratios f) as [[ear mar] |]; [| discriminate].
  rewrite Hear, Hconsec.
  destruct (Qgtb 0.25 ear) eqn:Hlow.
  - simpl. destruct (Qgtb mar _); simpl; intros [= <-]; discriminate.
  - apply Qgtb_false in Hlow.
    destruct (Nat.leb_spec 20 (FatigueDetector.eye_counter self)) as [Hlong | Hshort];
      simpl; destruct (Qgtb mar _); simpl; intros [= <-]; simpl;
      try discriminate; intros _.
    + exists earlier, streak. by rewrite <- Hcount.
    + exists earlier, streak. by rewrite <- Hcount.
Qed.

Lemma blink_needs_long_closure_witness :
  exists earlier streak,
    repeat (FatigueDetector.mkFrame (Some (0.1, 0.2)) 0 0) 20 = earlier ++ streak
    /\ Forall (FatigueDetector.closed_or_unmeasured 0.25) streak
    /\ (20 <= length (List.filter FatigueDetector.measured streak))%nat.
Proof.
  apply (blink_needs_long_closure
           (repeat (FatigueDetector.mkFrame (Some (0.1, 0.2)) 0 0) 20) 0
           (FatigueDetector.mkFrame (Some (0.3, 0.2)) 7 7)
           (DrowsinessAnalysis.mk 0.3 0.2 true false
              (FatigueDetector.calculate_fatigue_score
                 (snd (FatigueDetector.analyze_drowsiness
                         (FatigueDetector.mkFrame (Some (0.3, 0.2)) 7 7)
                         (FatigueDetector.run_frames
                            (repeat (FatigueDetector.mkFrame (Some (0.1, 0.2)) 0 0) 20)
                            (FatigueDetector.init 0))))
                 7))).
  - vm_compute. reflexivity.
  - reflexivity.
Defined.

(** The yawn counter is the number of measured frames of a closing run
    of frames with the mouth open. *)
Lemma yawn_counter_streak frames now :
  let self := FatigueDetector.run_frames frames (FatigueDetector.init now) in
  exists earlier streak,
    frames = earlier ++ streak
    /\ Forall (FatigueDetector.open_or_unmeasured 0.6) streak
    /\ FatigueDetector.yawn_counter self
       = length (List.filter FatigueDetector.measured streak).
Proof.
  induction frames as [| f frames IH] using rev_ind.
  - exists [], []. by repeat split.
  - cbv zeta in *. rewrite run_frames_snoc.
    destruct IH as (earlier & streak & Hsplit & Hopen & Hcount).
    destruct (run_frames_constants frames now) as (_ & _ & Hmar & _).
    set (self := FatigueDetector.run_frames frames (FatigueDetector.init now)) in *.
    unfold FatigueDetector.analyze_drowsiness.
    destruct (FatigueDetector.ratios f) as [[ear mar] |] eqn:Hratios.
    + assert (Hblink : FatigueDetector.MAR_THRESHOLD
                         (snd (FatigueDetector.detect_blink ear
                                 (FatigueDetector.blink_time f) self)) = 0.6
                       /\ FatigueDetector.yawn_counter
                            (snd (FatigueDetector.detect_blink ear
                                    (FatigueDetector.blink_time f) self))
                          = FatigueDetector.yawn_counter self).
      { unfold FatigueDetector.detect_blink.
        destruct (Qgtb _ ear); [| destruct (_ <=? _)%nat]; by simpl. }
      destruct (FatigueDetector.detect_blink ear (FatigueDetector.blink_time f) self)
        as [blink_detected self1].
      simpl in Hblink. destruct Hblink as [Hmar1 Hyawn1].
      unfold FatigueDetector.detect_yawn. rewrite Hmar1.
      destruct (Qgtb mar 0.6) eqn:Hwide; simpl.
      * exists earlier, (streak ++ [f]). split; [by rewrite Hsplit, app_assoc |].
        split.
        -- apply Forall_app. split; [done |]. constructor; [| done].
           unfold FatigueDetector.open_or_unmeasured. rewrite Hratios.
           by apply Qgtb_true.
        -- rewrite List.filter_app, length_app. simpl.
           unfold FatigueDetector.measured at 2. rewrite Hratios. simpl. lia.
      * exists (frames ++ [f]), []. split; [by rewrite app_nil_r |]. done.
    + exists earlier, (streak ++ [f]). split; [by rewrite Hsplit, app_assoc |].
      split.
      * apply Forall_app. split; [done |]. constructor; [| done].
        unfold FatigueDetector.open_or_unmeasured. by rewrite Hratios.
      * rewrite List.filter_app, length_app. simpl.
        unfold FatigueDetector.measured at 2. rewrite Hratios. simpl. lia.
Qed.

(** X23. A yawn is reported only for a sustained opening of the mouth:
    when the analysis of a frame reports a yawn, the frames up to and
    including it end with a run of frames with the mouth open (or no
    measure) of which at least 10 were measured. *)
Theorem yawn_needs_sustained_opening (frames : list FatigueDetector.frame)
    (now : Q) (f : FatigueDetector.frame) (analysis : DrowsinessAnalysis.t) :
  fst (FatigueDetector.analyze_drowsiness f
         (FatigueDetector.run_frames frames (FatigueDetector.init now)))
  = Some analysis ->
  DrowsinessAnalysis.yawn_detected analysis = true ->
  exists earlier streak,
    frames ++ [f] = earlier ++ streak
    /\ Forall (FatigueDetector.open_or_unmeasured 0.6) streak
    /\ (10 <= length (List.filter FatigueDetector.measured streak))%nat.
Proof.
  intros Hanalysis Hyawn.
  destruct (yawn_counter_streak (frames ++ [f]) now)
    as (earlier & streak & Hsplit & Hopen & Hcount).
  exists earlier, streak. split; [done |]. split; [done |].
  rewrite <- Hcount. cbv zeta. rewrite run_frames_snoc.
  set (self := FatigueDetector.run_frames frames (FatigueDetector.init now)) in *.
  revert Hanalysis. unfold FatigueDetector.analyze_drowsiness.
  destruct (FatigueDetector.ratios f) as [[ear mar] |]; [| discriminate].
  destruct (FatigueDetector.detect_blink ear (FatigueDetector.blink_time f) self)
    as [blink_detected self1].
  unfold FatigueDetector.detect_yawn.
  destruct (Qgtb mar (FatigueDetector.MAR_THRESHOLD self1)); cbn [fst snd];
    intros [= <-]; cbn [DrowsinessAnalysis.yawn_detected] in Hyawn;
    [| discriminate].
  cbn [FatigueDetector.yawn_counter].
  change ((10 <=? FatigueDetector.yawn_counter self1 + 1)%nat = true) in Hyawn.
  by apply Nat.leb_le in Hyawn.
Qed.

Lemma yawn_needs_sustained_opening_witness :
  exists earlier streak,
    repeat (FatigueDetector.mkFrame (Some (0.3, 0.7)) 0 0) 9
      ++ [FatigueDetector.mkFrame (Some (0.3, 0.7)) 0 0]
    = earlier ++ streak
    /\ Forall (FatigueDetector.open_or_unmeasured 0.6) streak
    /\ (10 <= length (List.filter FatigueDetector.measured streak))%nat.
Proof.
  apply (yawn_needs_sustained_opening
           (repeat (FatigueDetector.mkFrame (Some (0.3, 0.7)) 0 0) 9) 0
           (FatigueDetector.mkFrame (Some (0.3, 0.7)) 0 0)
           (DrowsinessAnalysis.mk 0.3 0.7 false true
              (FatigueDetector.calculate_fatigue_score
                 (snd (FatigueDetector.analyze_drowsiness
                         (FatigueDetector.mkFrame (Some (0.3, 0.7)) 0 0)
                         (FatigueDetector.run_frames
                            (repeat (FatigueDetector.mkFrame (Some (0.3, 0.7)) 0 0) 9)
                            (FatigueDetector.init 0))))
                 0))).
  - vm_compute. reflexivity.
  - reflexivity.
Defined.

(** * The frame counter *)

Lemma update_fps_invariant (current_time : Q) (self : SmartDriveADAS.t) (k : nat) :
  0 <= SmartDriveADAS.fps self ->
  SmartDriveADAS.fps self <= inject_Z (Z.of_nat k) ->
  (SmartDriveADAS.frame_count self <= k)%nat ->
  let self' := SmartDriveADAS.update_fps current_time self in
  0 <= SmartDriveADAS.fps self'
  /\ SmartDriveADAS.fps self' <= inject_Z (Z.of_nat (S k))
  /\ (1 <= SmartDriveADAS.frame_count self' <= S k)%nat.
Proof.
  intros Hnonneg Hfps Hcount. cbv zeta. unfold SmartDriveADAS.update_fps.
  assert (Hk : inject_Z (Z.of_nat k) <= inject_Z (Z.of_nat (S k)))
    by (rewrite <- Zle_Qle; lia).
  destruct (Qle_bool 1.0 (current_time - SmartDriveADAS.last_fps_time self))
    eqn:Hwindow; simpl.
  - apply Qle_bool_iff in Hwindow.
    set (dt := current_time - SmartDriveADAS.last_fps_time self) in *.
    set (frames := inject_Z (Z.of_nat (SmartDriveADAS.frame_count self))).
    assert (Hframes : 0 <= frames) by (apply inject_Z_nonneg; lia).
    assert (Hle : frames <= inject_Z (Z.of_nat k))
      by (subst frames; rewrite <- Zle_Qle; lia).
    assert (Hdt : 0 < dt) by lra.
    split; [| split; [| lia]].
    + apply Qle_shift_div_l; [done |]. lra.
    + apply Qle_trans with frames; [| lra].
      apply Qle_shift_div_r; [done |].
      pose proof (Qmult_le_0_compat _ _ Hframes
                    (proj1 (Qle_minus_iff 1 dt) ltac:(lra))) as Hprod.
      lra.
  - split; [done |]. split; [lra | lia].
Qed.

(** X24. The frame rate is never computed over less than one second:
    after any number of [update_fps] calls, at any clock readings, the
    rate is not negative and does not exceed the number of calls made,
    and the frame counter is at least 1 after a call and never exceeds
    the number of calls. *)
Theorem update_fps_bounds (now : Q) (times : list Q) :
  let self := SmartDriveADAS.run_updates times (SmartDriveADAS.init now) in
  0 <= SmartDriveADAS.fps self
  /\ SmartDriveADAS.fps self <= inject_Z (Z.of_nat (length times))
  /\ (SmartDriveADAS.frame_count self <= length times)%nat
  /\ (times <> [] -> (1 <= SmartDriveADAS.frame_count self)%nat).
Proof.
  cbv zeta.
  induction times as [| current_time times IH] using rev_ind.
  - simpl. repeat split; try done; apply Qle_refl.
  - unfold SmartDriveADAS.run_updates in *. rewrite fold_left_app. simpl.
    destruct IH as (Hnonneg & Hfps & Hcount & _).
    destruct (update_fps_invariant current_time _ _ Hnonneg Hfps Hcount)
      as (H1 & H2 & H3).
    replace (length (times ++ [current_time])) with (S (length times))
      by (rewrite length_app; simpl; lia).
    split; [exact H1 |]. split; [exact H2 |].
    split; [exact (proj2 H3) |]. intros _. exact (proj1 H3).
Qed.

Lemma update_fps_bounds_witness :
  (1 <= SmartDriveADAS.frame_count
          (SmartDriveADAS.run_updates [1 # 2; 3 # 2] (SmartDriveADAS.init 0)))%nat.
Proof.
  apply (update_fps_bounds 0 [1 # 2; 3 # 2]). discriminate.
Defined.
